(** * VoteChain: the admin and voter front ends over the election ledger

    A shallow embedding of [src/js/admin.js] (the [AdminApp] object) and
    [src/js/app.js] (the [VoterApp] object).  Both programs are sequences of
    awaited calls to one deployed [ElectionFactory] contract, followed by
    DOM updates.  The embedding keeps that shape:

    - the contract is a ledger value threaded through a small state and
      exception monad, together with the log of calls issued so far;
    - what a function writes into the page is kept as structured data
      (rows, cards, buttons) instead of the HTML text it is rendered to;
    - integers coming from [toNumber()] and from [Math.floor(Date.now()/1000)]
      are [Z]; the one place that divides (percentages) uses binary64. *)

From Stdlib Require Import ZArith String Ascii.
From Stdlib Require Import Floats.PrimFloat Floats.FloatOps Floats.SpecFloat.
From Stdlib Require Import Numbers.Cyclic.Int63.Uint63.
From stdpp Require Import base list gmap strings sorting.

Local Open Scope string_scope.
Local Open Scope list_scope.
Local Open Scope Z_scope.

(** ** Results of awaited calls *)

(** The error kinds a contract call can be rejected with, and the error
    [toNumber()] throws for a number that takes more than 53 bits. *)
Inductive Error : Type :=
| InvalidWindow
| PastStart
| UnknownElection
| UnknownCandidate
| ElectionAlreadyStarted
| NotActive
| AlreadyVoted
| NotFound
| UnsafeNumber.

(** An awaited promise either resolves to a value or rejects. *)
Inductive Result (A : Type) : Type :=
| Ok (a : A)
| Throw (e : Error).
Arguments Ok {A} a.
Arguments Throw {A} e.

(** ** The ledger behind the contract instance *)

Module Contract.

(** Modelled from the spec: the [ElectionFactory] contract behind the
    contract instance ([build/contracts/ElectionFactory.json] and its
    Solidity source are not part of the source tree).  Section 3, Candidate:
    an id unique within its election, a name, a party and a vote count. *)
Record Candidate : Type := mkCandidate {
  candidateId : Z;
  candidateName : string;
  candidateParty : string;
  voteCount : Z
}.

(** Modelled from the spec: section 3, Election, of the missing contract;
    [candidateCount] is derived from the attached candidates. *)
Record Election : Type := mkElection {
  electionId : Z;
  electionName : string;
  startTime : Z;
  endTime : Z;
  candidates : list Candidate
}.

(** Modelled from the spec: section 3, Vote record, of the missing contract,
    keyed by election and voter. *)
Record VoteRecord : Type := mkVoteRecord {
  voteElection : Z;
  voterIdentity : string;
  voteCandidate : Z;
  voteTimestamp : Z
}.

(** Modelled from the spec: the store of the missing contract: elections in
    creation order, the append-only vote records, and the time of the
    current block. *)
Record Ledger : Type := mkLedger {
  elections : list Election;
  voteRecords : list VoteRecord;
  blockTime : Z
}.

(** Modelled from the spec: what [getElection] of the missing contract hands
    back; the front ends read it as the tuple
    [(id, name, startTime, endTime, candidateCount)]. *)
Record ElectionInfo : Type := mkElectionInfo {
  infoId : Z;
  infoName : string;
  infoStartTime : Z;
  infoEndTime : Z;
  infoCandidateCount : Z
}.

(** Modelled from the spec: the missing contract as deployed, with no
    election. *)
Definition emptyLedger (now : Z) : Ledger :=
  {| elections := []; voteRecords := []; blockTime := now |}.

(** Modelled from the spec: the lookup by id behind the read-only calls of
    the missing contract (section 4.1). *)
Definition findElection (l : Ledger) (id : Z) : option Election :=
  find (fun e => bool_decide (electionId e = id)) (elections l).

(** Modelled from the spec: the lookup of a candidate of the missing
    contract by its id within an election. *)
Definition findCandidate (e : Election) (cid : Z) : option Candidate :=
  find (fun c => bool_decide (candidateId c = cid)) (candidates e).

(** Modelled from the spec: [candidateCount] of the missing contract, the
    number of candidates attached. *)
Definition candidateCount (e : Election) : Z :=
  Z.of_nat (length (candidates e)).

(** Modelled from the spec: [getElectionCount() -> integer] of the missing
    contract. *)
Definition getElectionCount (l : Ledger) : Z :=
  Z.of_nat (length (elections l)).

(** Modelled from the spec: [getElection(id) -> Election | NotFound] of the
    missing contract. *)
Definition getElection (l : Ledger) (id : Z) : Result ElectionInfo :=
  match findElection l id with
  | Some e =>
      Ok {| infoId := electionId e;
            infoName := electionName e;
            infoStartTime := startTime e;
            infoEndTime := endTime e;
            infoCandidateCount := candidateCount e |}
  | None => Throw NotFound
  end.

(** Modelled from the spec: [getCandidate(electionId, id) -> Candidate |
    NotFound] of the missing contract. *)
Definition getCandidate (l : Ledger) (eid cid : Z) : Result Candidate :=
  match findElection l eid with
  | Some e =>
      match findCandidate e cid with
      | Some c => Ok c
      | None => Throw NotFound
      end
  | None => Throw NotFound
  end.

(** Modelled from the spec: [hasVoted(electionId, voterIdentity) -> boolean]
    of the missing contract. *)
Definition hasVoted (l : Ledger) (eid : Z) (who : string) : bool :=
  existsb
    (fun v => bool_decide (voteElection v = eid) &&
              bool_decide (voterIdentity v = who))
    (voteRecords l).

(** Modelled from the spec: [createElection(name, startTime, endTime)] of
    the missing contract; [InvalidWindow] if [endTime <= startTime],
    [PastStart] if [startTime] is not strictly after the current time, and
    otherwise the next sequential id, starting at 1. *)
Definition createElection (l : Ledger) (nm : string) (st en : Z)
  : Result (Z * Ledger) :=
  if bool_decide (en <= st) then Throw InvalidWindow
  else if bool_decide (st <= blockTime l) then Throw PastStart
  else
    let id := getElectionCount l + 1 in
    let e := {| electionId := id; electionName := nm; startTime := st;
                endTime := en; candidates := [] |} in
    Ok (id, {| elections := elections l ++ [e];
               voteRecords := voteRecords l;
               blockTime := blockTime l |}).

(** Modelled from the spec: the write of the missing contract to the
    election stored under [id]. *)
Definition updateElection (id : Z) (f : Election -> Election)
    (es : list Election) : list Election :=
  map (fun e => if bool_decide (electionId e = id) then f e else e) es.

(** Modelled from the spec: a candidate appended to an election of the
    missing contract. *)
Definition pushCandidate (c : Candidate) (e : Election) : Election :=
  {| electionId := electionId e; electionName := electionName e;
     startTime := startTime e; endTime := endTime e;
     candidates := candidates e ++ [c] |}.

(** Modelled from the spec: [addCandidate(electionId, name, party)] of the
    missing contract; [UnknownElection], [ElectionAlreadyStarted] when the
    current time has reached the start, and otherwise the next id scoped to
    the election, starting at 1, with a vote count of 0. *)
Definition addCandidate (l : Ledger) (eid : Z) (nm pty : string)
  : Result (Z * Ledger) :=
  match findElection l eid with
  | None => Throw UnknownElection
  | Some e =>
      if bool_decide (startTime e <= blockTime l)
      then Throw ElectionAlreadyStarted
      else
        let cid := candidateCount e + 1 in
        let c := {| candidateId := cid; candidateName := nm;
                    candidateParty := pty; voteCount := 0 |} in
        Ok (cid, {| elections := updateElection eid (pushCandidate c)
                                   (elections l);
                    voteRecords := voteRecords l;
                    blockTime := blockTime l |})
  end.

(** Modelled from the spec: the increment of one [voteCount] by the missing
    contract. *)
Definition bumpVote (cid : Z) (e : Election) : Election :=
  {| electionId := electionId e; electionName := electionName e;
     startTime := startTime e; endTime := endTime e;
     candidates :=
       map (fun c => if bool_decide (candidateId c = cid)
                     then {| candidateId := candidateId c;
                             candidateName := candidateName c;
                             candidateParty := candidateParty c;
                             voteCount := voteCount c + 1 |}
                     else c)
           (candidates e) |}.

(** Modelled from the spec: [vote(electionId, voterIdentity, candidateId)]
    of the missing contract, steps 1 to 5 of section 4.3; the increment and
    the vote record are written together. *)
Definition vote (l : Ledger) (eid : Z) (who : string) (cid : Z)
  : Result Ledger :=
  match findElection l eid with
  | None => Throw UnknownElection
  | Some e =>
      if negb (bool_decide (startTime e <= blockTime l) &&
               bool_decide (blockTime l < endTime e))
      then Throw NotActive
      else if hasVoted l eid who then Throw AlreadyVoted
      else
        match findCandidate e cid with
        | None => Throw UnknownCandidate
        | Some _ =>
            Ok {| elections := updateElection eid (bumpVote cid)
                                 (elections l);
                  voteRecords :=
                    voteRecords l ++
                    [{| voteElection := eid; voterIdentity := who;
                        voteCandidate := cid;
                        voteTimestamp := blockTime l |}];
                  blockTime := blockTime l |}
        end
  end.

(** Modelled from the spec: the time source of the missing contract moving
    on to a later block. *)
Definition mineAt (t : Z) (l : Ledger) : Ledger :=
  {| elections := elections l; voteRecords := voteRecords l;
     blockTime := Z.max t (blockTime l) |}.

(** Modelled from the spec: the id discipline of the missing contract:
    elections are numbered 1, 2, ... in creation order and so are the
    candidates of each election. *)
Definition sequentialCandidates (e : Election) : Prop :=
  map candidateId (candidates e) = seqZ 1 (candidateCount e).

(** Modelled from the spec: the same discipline for the whole store of the
    missing contract. *)
Definition sequentialIds (l : Ledger) : Prop :=
  map electionId (elections l) = seqZ 1 (getElectionCount l) /\
  Forall sequentialCandidates (elections l).

End Contract.

(** ** Calls, worlds and the monad of the front ends *)

(** The calls a front end can issue on the contract instance. *)
Inductive Call : Type :=
| CallGetElectionCount
| CallGetElection (id : Z)
| CallGetCandidate (eid cid : Z)
| CallHasVoted (eid : Z) (from : string)
| CallCreateElection (nm : string) (st en : Z)
| CallAddCandidate (eid : Z) (nm pty : string).

(** A world is the ledger, the calls issued so far (oldest first) and the
    state [U] of the page and of the application object. *)
Record World (U : Type) : Type := mkWorld {
  chain : Contract.Ledger;
  calls : list Call;
  page : U
}.
Arguments mkWorld {U} _ _ _.
Arguments chain {U} _.
Arguments calls {U} _.
Arguments page {U} _.

Definition M (U A : Type) : Type := World U -> Result A * World U.

Definition ret {U A} (a : A) : M U A := fun w => (Ok a, w).

Definition bind {U A B} (c : M U A) (k : A -> M U B) : M U B :=
  fun w =>
    match c w with
    | (Ok a, w') => k a w'
    | (Throw e, w') => (Throw e, w')
    end.

Notation "'let*' x ':=' c 'in' k" := (bind c (fun x => k))
  (at level 10, x pattern, c at level 100, k at level 200).
Notation "c ';;' k" := (bind c (fun _ => k))
  (at level 100, k at level 200, right associativity).

(** [try { body } catch (error) { handler }] *)
Definition tryCatch {U A} (body : M U A) (handler : Error -> M U A) : M U A :=
  fun w =>
    match body w with
    | (Ok a, w') => (Ok a, w')
    | (Throw e, w') => handler e w'
    end.

(** [try { body } finally { cleanup }], for a cleanup that cannot throw. *)
Definition finally {U A} (body : M U A) (cleanup : World U -> World U)
  : M U A :=
  fun w => let '(r, w') := body w in (r, cleanup w').

Definition modifyPage {U} (f : U -> U) : M U unit :=
  fun w => (Ok tt, mkWorld (chain w) (calls w) (f (page w))).

Definition getPage {U} : M U U := fun w => (Ok (page w), w).

Definition logCall {U} (c : Call) (w : World U) : World U :=
  mkWorld (chain w) (calls w ++ [c]) (page w).

(** A view call: logged, answered from the ledger, which it leaves alone. *)
Definition viewCall {U A} (c : Call) (f : Contract.Ledger -> Result A)
  : M U A :=
  fun w => (f (chain w), logCall c w).

(** A transaction: logged; the ledger changes only when it succeeds. *)
Definition sendCall {U A} (c : Call)
    (f : Contract.Ledger -> Result (A * Contract.Ledger)) : M U A :=
  fun w =>
    match f (chain w) with
    | Ok (a, l') => (Ok a, mkWorld l' (calls w ++ [c]) (page w))
    | Throw e => (Throw e, logCall c w)
    end.

(** [for (...) { acc = await body(acc, x) }] over the iteration values [xs];
    a rejected await leaves the loop. *)
Fixpoint forEachM {U S X} (body : S -> X -> M U S) (xs : list X) (acc : S)
  : M U S :=
  match xs with
  | [] => ret acc
  | x :: xs' => let* acc' := body acc x in forEachM body xs' acc'
  end.

(** The values of [i] in [for (let i = 1; i <= n; i++)]. *)
Definition upTo (n : Z) : list Z := seqZ 1 n.

(** [bn.toNumber()] on a number the contract returned: the number itself
    while it fits in 53 bits, and an exception from 2^53 on. *)
Definition toNumber {U} (z : Z) : M U Z :=
  fun w => if Z.abs z <? 2 ^ 53 then (Ok z, w) else (Throw UnsafeNumber, w).

Section InstanceCalls.
Context {U : Type}.

Definition getElectionCount : M U Z :=
  viewCall CallGetElectionCount
    (fun l => Ok (Contract.getElectionCount l)).

Definition getElection (id : Z) : M U Contract.ElectionInfo :=
  viewCall (CallGetElection id) (fun l => Contract.getElection l id).

Definition getCandidate (eid cid : Z) : M U Contract.Candidate :=
  viewCall (CallGetCandidate eid cid)
    (fun l => Contract.getCandidate l eid cid).

Definition hasVoted (eid : Z) (from : string) : M U bool :=
  viewCall (CallHasVoted eid from)
    (fun l => Ok (Contract.hasVoted l eid from)).

Definition sendCreateElection (nm : string) (st en : Z) : M U Z :=
  sendCall (CallCreateElection nm st en)
    (fun l => Contract.createElection l nm st en).

Definition sendAddCandidate (eid : Z) (nm pty : string) : M U Z :=
  sendCall (CallAddCandidate eid nm pty)
    (fun l => Contract.addCandidate l eid nm pty).
End InstanceCalls.

(** ** Array.prototype.sort *)

(** [arr.sort(cmp)] as ECMAScript 2019 specifies it: the result is ordered by
    [cmp] and stable, so elements that compare equal keep the order they had.
    A negative [cmp a b] puts [a] first, a positive one puts [b] first. *)
Section JsSort.
Context {A : Type} (cmp : A -> A -> Z).

Fixpoint sortInsert (x : A) (l : list A) : list A :=
  match l with
  | [] => [x]
  | y :: l' => if cmp x y <=? 0 then x :: y :: l' else y :: sortInsert x l'
  end.

Definition jsSort (l : list A) : list A := foldr sortInsert [] l.
End JsSort.

(** ** Election status, shared by both front ends *)

Inductive Status : Type := Upcoming | Active | Ended.

#[global] Instance Status_eq_dec : EqDecision Status.
Proof. solve_decision. Defined.

Definition statusText (s : Status) : string :=
  match s with
  | Upcoming => "Upcoming"
  | Active => "Active"
  | Ended => "Ended"
  end.

(** ** Numbers that are divided: binary64 and [toFixed] *)

(** A count read with [toNumber()] as a JavaScript number.  Counts are
    non-negative and below 2^53 (beyond that [toNumber()] throws), where the
    conversion is exact. *)
Definition numberOfZ (z : Z) : float := PrimFloat.of_uint63 (Uint63.of_Z z).

(** The text [x.toFixed(digits)] produces.  For a finite [x] below 10^21 it
    is the decimal numeral of [n / 10^digits], with [n] the integer nearest to
    [x * 10^digits] and the larger one on a tie, preceded by a minus sign for
    a negative [x]. *)
Inductive FixedText : Type :=
| Decimal (negative : bool) (n : Z) (digits : nat)
| NotFinite (x : float)
| Exponential (x : float).

Definition toFixed (x : float) (digits : nat) : FixedText :=
  match Prim2SF x with
  | S754_nan => NotFinite x
  | S754_infinity _ => NotFinite x
  | S754_zero _ => Decimal false 0 digits
  | S754_finite s m e =>
      let scale := 10 ^ Z.of_nat digits in
      let large :=
        if 0 <=? e then 10 ^ 21 <=? Z.pos m * 2 ^ e
        else 10 ^ 21 * 2 ^ (- e) <=? Z.pos m in
      if large then Exponential x
      else
        let n :=
          if 0 <=? e then Z.pos m * 2 ^ e * scale
          else (2 * Z.pos m * scale + 2 ^ (- e)) / 2 ^ (1 - e) in
        Decimal s n digits
  end.

(** The value of the [percentage] constant of the two tally renderers:
    [totalVotes > 0 ? ((votes / totalVotes) * 100).toFixed(digits) : 0]. *)
Inductive Percentage : Type :=
| PercentFixed (t : FixedText)
| PercentZero.

Definition percentageOf (digits : nat) (votes totalVotes : Z) : Percentage :=
  if 0 <? totalVotes
  then PercentFixed
         (toFixed (PrimFloat.mul
                     (PrimFloat.div (numberOfZ votes) (numberOfZ totalVotes))
                     (numberOfZ 100))
                  digits)
  else PercentZero.

(** ** Data shared by the two tally renderers *)

(** The object [{ id, name, party, votes }] built from a fetched candidate. *)
Record CandidateData : Type := mkCandidateData {
  cdId : Z;
  cdName : string;
  cdParty : string;
  cdVotes : Z
}.

Definition candidateData (c : Contract.Candidate) : CandidateData :=
  {| cdId := Contract.candidateId c;
     cdName := Contract.candidateName c;
     cdParty := Contract.candidateParty c;
     cdVotes := Contract.voteCount c |}.

(** The comparator [(a, b) => b.votes - a.votes]. *)
Definition byVotesDescending (a b : CandidateData) : Z := cdVotes b - cdVotes a.

(** A string used as a condition: only the empty string is falsy. *)
Definition truthy (s : string) : bool := negb (String.eqb s "").

(** Both front ends write the names they read from the ledger into template
    literals and hand the result to jQuery's [.html()], unescaped.  A string
    without [<] and [&] is read back by the browser as the text it is; any
    other string is read as markup, or as character references, and can add
    elements of its own to the page. *)
Definition plainCharacter (a : Ascii.ascii) : bool :=
  negb (Ascii.eqb a "<"%char) && negb (Ascii.eqb a "&"%char).

Definition plainText (s : string) : bool :=
  forallb plainCharacter (list_ascii_of_string s).

(** An element of the page with its content and whether it is shown. *)
Record Element (A : Type) : Type := mkElement {
  content : A;
  shown : bool
}.
Arguments mkElement {A} _ _.
Arguments content {A} _.
Arguments shown {A} _.

(** ** admin.js *)

(** The [AdminApp] object: the election form, the creation flow, the
    elections table, the live tally and the results page.  Wallet and network
    set-up ([init], [setupWeb3], [setupContract], [displayNetworkInfo]) is
    not part of the model. *)
Module AdminApp.

(** One [{ name, party }] entry of the submitted candidate list. *)
Record CandidateEntry : Type := mkEntry {
  entryName : string;
  entryParty : string
}.

(** The election form.  [candidateRows] maps [i] to the values of
    [#name-i] and [#party-i] when the element [#candidate-i] is in the
    page; a removed row is absent.  The two dates are kept as the epoch
    seconds [getFormData] computes from the date inputs (inputs that do not
    parse to a date are outside the model). *)
Record Form : Type := mkForm {
  formElectionName : string;
  formStart : Z;
  formEnd : Z;
  candidateRows : gmap Z (string * string)
}.

(** The object returned by [getFormData]; [fdElectionId] is the property
    [createElectionOnBlockchain] adds, 0 while it is still undefined (ids
    start at 1). *)
Record FormData : Type := mkFormData {
  fdElectionName : string;
  fdStartDate : Z;
  fdEndDate : Z;
  fdCandidates : list CandidateEntry;
  fdElectionId : Z
}.

(** What [setStatus] and the tally message can show.  [Literal] is a fixed
    text; the others are the template strings of the source with their
    holes:
    [Creating election "${name}"...],
    [Election "${name}" created with ID: ${id}. Adding candidates...],
    [Adding candidate ${i+1}/${n}: ${name}...],
    [Success! Election "${name}" created with ${n} candidates!],
    [Error: ${error.message}] and
    [Error updating tally: ${error.message}]. *)
Inductive Message : Type :=
| Literal (s : string)
| Creating (nm : string)
| CreatedAddingCandidates (nm : string) (id : Z)
| AddingCandidate (i n : Z) (nm : string)
| Success (nm : string) (n : Z)
| ErrorMessage (e : Error)
| TallyError (e : Error).

(** A card of the live tally. *)
Record TallyCard : Type := mkTallyCard {
  cardName : string;
  cardParty : string;
  cardVotes : Z;
  cardPercentage : Percentage
}.

Record TallyCards : Type := mkTallyCards {
  tallyTitle : string;
  cards : list TallyCard
}.

(** A row of the elections table, with the two action buttons. *)
Record ElectionRow : Type := mkElectionRow {
  rowId : Z;
  rowName : string;
  rowStart : Z;
  rowEnd : Z;
  rowStatus : Status;
  rowStatusClass : string;
  rowCandidateCount : Z;
  rowViewResults : bool;
  rowLiveTally : bool
}.

(** A row of the results table: id, name, party, votes. *)
Record ResultRow : Type := mkResultRow {
  resId : Z;
  resName : string;
  resParty : string;
  resVotes : Z
}.

(** The results page built by [buildResultsHTML]. *)
Record ResultsView : Type := mkResultsView {
  resultsTitle : string;
  resultsStart : Z;
  resultsEnd : Z;
  resultsRows : list ResultRow;
  resultsTotal : Z
}.

(** What [#activeElections] holds.  [ElectionsTable rows] is the table the
    browser builds from the template when every name in it is plain text:
    exactly these rows with their own cells and buttons.
    [ElectionsMarkup rows] is what was written from the same template when a
    name carries markup: the cells, rows and buttons of the page are then
    the browser's reading of that markup and are not given by the rows. *)
Inductive ElectionsView : Type :=
| Untouched
| NoElections
| ElectionsTable (rows : list ElectionRow)
| ElectionsMarkup (rows : list ElectionRow)
| Results (v : ResultsView)
| LoadError (e : Error)
| ResultsError (e : Error).

(** The application object and the parts of the page it drives.  The debug
    line, the console and the ten-second timer of [startLiveTallyUpdate]
    are left out. *)
Record Page : Type := mkPage {
  candidateCounter : Z;
  form : Form;
  electionStatus : option (Message * string);
  createDisabled : bool;
  tallyMessage : Element (option Message);
  tallyCards : Element (option TallyCards);
  activeElections : ElectionsView
}.

(** The form as the page loads it: no text, and the page's own first
    candidate row (the rows added later are numbered from 2). *)
Definition emptyForm : Form :=
  {| formElectionName := ""; formStart := 0; formEnd := 0;
     candidateRows := {[ 1 := ("", "") ]} |}.

Definition initialPage : Page :=
  {| candidateCounter := 1; form := emptyForm; electionStatus := None;
     createDisabled := false;
     tallyMessage := mkElement None true;
     tallyCards := mkElement None false;
     activeElections := Untouched |}.

Definition withStatus (s : option (Message * string)) (p : Page) : Page :=
  {| candidateCounter := candidateCounter p; form := form p;
     electionStatus := s; createDisabled := createDisabled p;
     tallyMessage := tallyMessage p; tallyCards := tallyCards p;
     activeElections := activeElections p |}.

Definition withCreateDisabled (b : bool) (p : Page) : Page :=
  {| candidateCounter := candidateCounter p; form := form p;
     electionStatus := electionStatus p; createDisabled := b;
     tallyMessage := tallyMessage p; tallyCards := tallyCards p;
     activeElections := activeElections p |}.

Definition withTally (m : Element (option Message))
    (c : Element (option TallyCards)) (p : Page) : Page :=
  {| candidateCounter := candidateCounter p; form := form p;
     electionStatus := electionStatus p; createDisabled := createDisabled p;
     tallyMessage := m; tallyCards := c;
     activeElections := activeElections p |}.

Definition withActiveElections (v : ElectionsView) (p : Page) : Page :=
  {| candidateCounter := candidateCounter p; form := form p;
     electionStatus := electionStatus p; createDisabled := createDisabled p;
     tallyMessage := tallyMessage p; tallyCards := tallyCards p;
     activeElections := v |}.

Definition withForm (c : Z) (f : Form) (p : Page) : Page :=
  {| candidateCounter := c; form := f;
     electionStatus := electionStatus p; createDisabled := createDisabled p;
     tallyMessage := tallyMessage p; tallyCards := tallyCards p;
     activeElections := activeElections p |}.

Definition accent : string := "var(--accent-color)".

(** [setStatus(message, color)] *)
Definition setStatus (m : Message) (color : string) : M Page unit :=
  modifyPage (withStatus (Some (m, color))).

(** [handleError(context, error)] *)
Definition handleError (e : Error) : M Page unit :=
  setStatus (ErrorMessage e) "red".

(** [$("#tallyMessage").text(m).show(); $("#tallyCards").hide();] *)
Definition showTallyMessage (m : Message) : M Page unit :=
  modifyPage (fun p =>
    withTally (mkElement (Some m) true)
              (mkElement (content (tallyCards p)) false) p).

(** [$("#tallyMessage").show(); $("#tallyCards").hide();] *)
Definition showTallyPlaceholder : M Page unit :=
  modifyPage (fun p =>
    withTally (mkElement (content (tallyMessage p)) true)
              (mkElement (content (tallyCards p)) false) p).

(** [addMoreCandidates] click: a new, empty row under the next counter. *)
Definition addMoreCandidates (p : Page) : Page :=
  let c := candidateCounter p + 1 in
  withForm c
    {| formElectionName := formElectionName (form p);
       formStart := formStart (form p); formEnd := formEnd (form p);
       candidateRows := <[c := ("", "")]> (candidateRows (form p)) |} p.

(** [.remove-candidate] click on row [i]. *)
Definition removeCandidate (i : Z) (p : Page) : Page :=
  withForm (candidateCounter p)
    {| formElectionName := formElectionName (form p);
       formStart := formStart (form p); formEnd := formEnd (form p);
       candidateRows := delete i (candidateRows (form p)) |} p.

(** [collectCandidates()] *)
Definition collectCandidates (p : Page) : list CandidateEntry :=
  foldl
    (fun candidates i =>
       match candidateRows (form p) !! i with
       | Some (name, party) =>
           if truthy name && truthy party
           then candidates ++ [{| entryName := name; entryParty := party |}]
           else candidates
       | None => candidates
       end)
    [] (upTo (candidateCounter p)).

(** [getFormData()] *)
Definition getFormData (p : Page) : FormData :=
  {| fdElectionName := formElectionName (form p);
     fdStartDate := formStart (form p);
     fdEndDate := formEnd (form p);
     fdCandidates := collectCandidates p;
     fdElectionId := 0 |}.

(** [validateFormData(formData)], with [now] the value of
    [Math.floor(Date.now() / 1000)] it reads. *)
Definition validateFormData (formData : FormData) (now : Z) : M Page bool :=
  if fdStartDate formData <? now then
    setStatus (Literal "Start date must be in the future") "red";;
    ret false
  else if fdEndDate formData <=? fdStartDate formData then
    setStatus (Literal "End date must be after start date") "red";;
    ret false
  else if Z.of_nat (length (fdCandidates formData)) <? 2 then
    setStatus
      (Literal "Please add at least two candidates for the election") "red";;
    ret false
  else ret true.

(** [createElectionOnBlockchain(formData)]; returns the form data with the
    election id it stores in it. *)
Definition createElectionOnBlockchain (formData : FormData)
  : M Page FormData :=
  setStatus (Creating (fdElectionName formData)) accent;;
  let* electionId :=
    sendCreateElection (fdElectionName formData) (fdStartDate formData)
      (fdEndDate formData) in
  setStatus (CreatedAddingCandidates (fdElectionName formData) electionId)
    accent;;
  ret {| fdElectionName := fdElectionName formData;
         fdStartDate := fdStartDate formData;
         fdEndDate := fdEndDate formData;
         fdCandidates := fdCandidates formData;
         fdElectionId := electionId |}.

(** [addCandidatesToElection(electionId, candidates)]: the loop runs over
    [i = 0 .. candidates.length - 1] with [candidate = candidates[i]]. *)
Definition addCandidatesToElection (electionId : Z)
    (candidates : list CandidateEntry) : M Page unit :=
  let n := Z.of_nat (length candidates) in
  forEachM
    (fun _ '(i, candidate) =>
       setStatus (AddingCandidate (i + 1) n (entryName candidate)) accent;;
       sendAddCandidate electionId (entryName candidate)
         (entryParty candidate);;
       ret tt)
    (zip (seqZ 0 n) candidates) tt.

(** [resetForm()]: the inputs are cleared, the added rows are removed and
    the counter restarts at 1. *)
Definition resetForm : M Page unit :=
  modifyPage (withForm 1 emptyForm).

(** [getElectionStatus(startTime, endTime, now)] *)
Definition getElectionStatus (startTime endTime now : Z)
  : Status * string :=
  if (startTime <=? now) && (now <? endTime) then (Active, "status-active")
  else if endTime <=? now then (Ended, "status-ended")
  else (Upcoming, "status-upcoming").

(** [getCandidatesData(instance, electionId, candidateCount)] *)
Definition getCandidatesData (electionId candidateCount : Z)
  : M Page (list CandidateData * Z) :=
  let* (candidates, totalVotes) :=
    forEachM
      (fun '(candidates, totalVotes) i =>
         let* candidate := getCandidate electionId i in
         let data := candidateData candidate in
         ret (candidates ++ [data], totalVotes + cdVotes data))
      (upTo candidateCount) ([], 0) in
  ret (jsSort byVotesDescending candidates, totalVotes).

(** [displayTallyResults(electionName, candidates, totalVotes)] *)
Definition displayTallyResults (electionName : string)
    (candidates : list CandidateData) (totalVotes : Z) : M Page unit :=
  let html :=
    {| tallyTitle := electionName;
       cards :=
         map (fun candidate =>
                {| cardName := cdName candidate;
                   cardParty := cdParty candidate;
                   cardVotes := cdVotes candidate;
                   cardPercentage :=
                     percentageOf 1 (cdVotes candidate) totalVotes |})
             candidates |} in
  modifyPage (fun p =>
    withTally (mkElement (content (tallyMessage p)) false)
              (mkElement (Some html) true) p).

(** [updateLiveTally(id)]; the two-argument form only selects the same
    contract instance. *)
Definition updateLiveTally (id : Z) : M Page unit :=
  tryCatch
    (let* election := getElection id in
     let name := Contract.infoName election in
     let candidateCount := Contract.infoCandidateCount election in
     if candidateCount =? 0 then
       showTallyMessage (Literal "No candidates found for this election")
     else
       let* (candidates, totalVotes) :=
         getCandidatesData id candidateCount in
       displayTallyResults name candidates totalVotes)
    (fun error => showTallyMessage (TallyError error)).

(** [buildElectionRow(election, now)]: the row and whether it is active.
    The record stands for the [<tr>] template with its holes filled in;
    [rowName] goes into its cell unescaped, which [electionsTable] accounts
    for when the table is written.  The numbers are the values of the
    [toNumber()] conversions, which return them unchanged below 2^53; their
    exception from 2^53 on is not part of this definition, and the
    statements about what the table shows are made for ledgers below that
    bound. *)
Definition buildElectionRow (election : Contract.ElectionInfo) (now : Z)
  : ElectionRow * bool :=
  let '(status, statusClass) :=
    getElectionStatus (Contract.infoStartTime election)
      (Contract.infoEndTime election) now in
  let isActive := bool_decide (status = Active) in
  ({| rowId := Contract.infoId election;
      rowName := Contract.infoName election;
      rowStart := Contract.infoStartTime election;
      rowEnd := Contract.infoEndTime election;
      rowStatus := status;
      rowStatusClass := statusClass;
      rowCandidateCount := Contract.infoCandidateCount election;
      rowViewResults := true;
      rowLiveTally := isActive |}, isActive).

(** The string [electionsHTML] as [.html()] reads it: each row holds its
    election's name unescaped. *)
Definition electionsTable (rows : list ElectionRow) : ElectionsView :=
  if forallb (fun row => plainText (rowName row)) rows
  then ElectionsTable rows
  else ElectionsMarkup rows.

(** [buildElectionsTable(count)], with [now] the clock value it reads: the
    rows in id order; every active election also refreshes the live
    tally. *)
Definition buildElectionsTable (count now : Z) : M Page (list ElectionRow) :=
  let* (html, hasActiveElection) :=
    forEachM
      (fun '(html, hasActiveElection) i =>
         let* election := getElection i in
         let '(row, isActive) := buildElectionRow election now in
         if isActive then
           updateLiveTally i;;
           ret (html ++ [row], true)
         else ret (html ++ [row], hasActiveElection))
      (upTo count) ([], false) in
  (if hasActiveElection then ret tt else showTallyPlaceholder);;
  ret html.

(** [loadActiveElections()] *)
Definition loadActiveElections (now : Z) : M Page unit :=
  tryCatch
    (let* electionCount := getElectionCount in
     if electionCount =? 0 then
       modifyPage (withActiveElections NoElections)
     else
       let* electionsHTML := buildElectionsTable electionCount now in
       modifyPage (withActiveElections (electionsTable electionsHTML)))
    (fun error =>
       handleError error;;
       modifyPage (withActiveElections (LoadError error))).

(** [buildResultsHTML(instance, electionId, name, startTime, endTime,
    candidateCount)]: one table row per fetched candidate, appended inside
    the loop, and the total in the footer. *)
Definition buildResultsHTML (electionId : Z) (name : string)
    (startTime endTime candidateCount : Z) : M Page ResultsView :=
  let* (html, totalVotes) :=
    forEachM
      (fun '(html, totalVotes) i =>
         let* candidate := getCandidate electionId i in
         let votes := Contract.voteCount candidate in
         ret (html ++ [{| resId := Contract.candidateId candidate;
                          resName := Contract.candidateName candidate;
                          resParty := Contract.candidateParty candidate;
                          resVotes := votes |}],
              totalVotes + votes))
      (upTo candidateCount) ([], 0) in
  ret {| resultsTitle := name; resultsStart := startTime;
         resultsEnd := endTime; resultsRows := html;
         resultsTotal := totalVotes |}.

(** [viewElectionResults(instance, electionId)] *)
Definition viewElectionResults (electionId : Z) : M Page unit :=
  tryCatch
    (let* election := getElection electionId in
     let* resultsHTML :=
       buildResultsHTML electionId (Contract.infoName election)
         (Contract.infoStartTime election) (Contract.infoEndTime election)
         (Contract.infoCandidateCount election) in
     modifyPage (withActiveElections (Results resultsHTML)))
    (fun error =>
       handleError error;;
       modifyPage (withActiveElections (ResultsError error))).

(** [createElection()].  [now] is the clock value read by the validation,
    [later] the one read by the refresh that follows a success. *)
Definition createElection (now later : Z) : M Page unit :=
  setStatus (Literal "Processing your request...") accent;;
  modifyPage (withCreateDisabled true);;
  finally
    (tryCatch
       (let* p := getPage in
        let formData := getFormData p in
        let* valid := validateFormData formData now in
        if negb valid then ret tt
        else
          let* formData := createElectionOnBlockchain formData in
          addCandidatesToElection (fdElectionId formData)
            (fdCandidates formData);;
          setStatus
            (Success (fdElectionName formData)
               (Z.of_nat (length (fdCandidates formData)))) "green";;
          resetForm;;
          loadActiveElections later)
       handleError)
    (fun w => mkWorld (chain w) (calls w)
                (withCreateDisabled false (page w))).

(** The callback [startLiveTallyUpdate()] hands to [setInterval], with [now]
    the clock value a run of it reads; the timer that starts it every ten
    seconds is not modelled. *)
Definition liveTallyTick (now : Z) : M Page unit :=
  tryCatch
    (let* electionCount := getElectionCount in
     forEachM
       (fun _ i =>
          let* election := getElection i in
          let startTime := Contract.infoStartTime election in
          let endTime := Contract.infoEndTime election in
          if (startTime <=? now) && (now <? endTime) then updateLiveTally i
          else ret tt)
       (upTo electionCount) tt)
    (fun _ => ret tt).

(** What [networkMap[chainId] || `Local Network (${chainId})`] evaluates to:
    a text, or a member the object literal inherits from [Object.prototype]
    when [chainId] happens to name one. *)
Inductive NetworkName : Type :=
| NetworkText (s : string)
| InheritedMember (key : string).

(** The object literal [networkMap] of [displayNetworkInfo()]. *)
Definition networkMap : gmap string string :=
  <["0x1" := "Ethereum Mainnet"]>
    (<["0x3" := "Ropsten Testnet"]>
       (<["0x4" := "Rinkeby Testnet"]>
          (<["0x5" := "Goerli Testnet"]>
             (<["0x539" := "Ganache Local"]> ∅)))).

(** The property names every object literal inherits. *)
Definition objectPrototype : list string :=
  ["constructor"; "__defineGetter__"; "__defineSetter__"; "hasOwnProperty";
   "__lookupGetter__"; "__lookupSetter__"; "isPrototypeOf";
   "propertyIsEnumerable"; "toString"; "valueOf"; "__proto__";
   "toLocaleString"].

(** [displayNetworkInfo()]: the network name it shows for the chain id the
    wallet reports. *)
Definition displayNetworkInfo (chainId : string) : NetworkName :=
  let fallback :=
    NetworkText (String.append "Local Network ("
                   (String.append chainId ")")) in
  match networkMap !! chainId with
  | Some name => if truthy name then NetworkText name else fallback
  | None =>
      if bool_decide (chainId ∈ objectPrototype) then InheritedMember chainId
      else fallback
  end.

End AdminApp.

(** ** app.js *)

(** The [VoterApp] object: the list of elections with its action controls,
    the results page and the ballot form.  Wallet set-up ([init]) is not part
    of the model. *)
Module VoterApp.

(** The control in the Actions column of a row. *)
Inductive ActionButton : Type :=
| VoteNow (id : Z)
| AlreadyVotedDisabled
| ViewResults (id : Z)
| NotStartedYet.

(** What a click on a control of the table starts: [.btn-vote] is bound to
    [showVotingBallot], [.btn-view] to [viewElectionResults]; the disabled
    button and the text have no handler. *)
Inductive Action : Type :=
| ShowVotingBallot (id : Z)
| ViewElectionResults (id : Z).

Definition onClick (b : ActionButton) : option Action :=
  match b with
  | VoteNow id => Some (ShowVotingBallot id)
  | ViewResults id => Some (ViewElectionResults id)
  | AlreadyVotedDisabled => None
  | NotStartedYet => None
  end.

Record ElectionRow : Type := mkElectionRow {
  rowId : Z;
  rowName : string;
  rowStart : Z;
  rowEnd : Z;
  rowStatus : Status;
  rowStatusClass : string;
  rowAction : ActionButton
}.

(** A row of the results table: the votes cell also shows the
    percentage. *)
Record ResultRow : Type := mkResultRow {
  resId : Z;
  resName : string;
  resParty : string;
  resVotes : Z;
  resPercentage : Percentage
}.

Record ResultsView : Type := mkResultsView {
  resultsTitle : string;
  resultsStart : Z;
  resultsEnd : Z;
  resultsRows : list ResultRow;
  resultsTotal : Z
}.

(** What [#activeElections] holds.  [ElectionsTable rows] is the table the
    browser builds from the template when every name in it is plain text:
    exactly these rows, with their own controls and no other.
    [ElectionsMarkup rows] is what was written from the same template when a
    name carries markup: the elements of the page, and the buttons the click
    handlers find in it, are then the browser's reading of that markup and
    are not given by the rows. *)
Inductive ElectionsView : Type :=
| Untouched
| Loading
| NoElections
| ElectionsTable (rows : list ElectionRow)
| ElectionsMarkup (rows : list ElectionRow)
| Results (v : ResultsView)
| LoadError (e : Error)
| ResultsError (e : Error).

Record Page : Type := mkPage {
  account : string;
  activeElections : ElectionsView
}.

(** The string [electionsHtml] as [.html()] reads it: each row holds its
    election's name unescaped. *)
Definition electionsTable (rows : list ElectionRow) : ElectionsView :=
  if forallb (fun row => plainText (rowName row)) rows
  then ElectionsTable rows
  else ElectionsMarkup rows.

(** [UI.updateElections(html)] *)
Definition updateElections (v : ElectionsView) : M Page unit :=
  modifyPage (fun p =>
    {| account := account p; activeElections := v |}).

(** The body of the loop of [loadActiveElections] for one fetched
    election, after its [toNumber()] conversions: status, action control
    and status class. *)
Definition electionRow (election : Contract.ElectionInfo) (now : Z)
  : M Page ElectionRow :=
  let id := Contract.infoId election in
  let name := Contract.infoName election in
  let startTime := Contract.infoStartTime election in
  let endTime := Contract.infoEndTime election in
  let* (status, actionButton) :=
    if (startTime <=? now) && (now <? endTime) then
      let* p := getPage in
      let* voted := hasVoted id (account p) in
      if voted : bool then ret (Active, AlreadyVotedDisabled)
      else ret (Active, VoteNow id)
    else if endTime <=? now then ret (Ended, ViewResults id)
    else ret (Upcoming, NotStartedYet) in
  let statusClass :=
    if bool_decide (status = Active) then "status-active"
    else if bool_decide (status = Ended) then "status-ended"
    else "status-upcoming" in
  ret {| rowId := id; rowName := name; rowStart := startTime;
         rowEnd := endTime; rowStatus := status;
         rowStatusClass := statusClass; rowAction := actionButton |}.

(** The [toNumber()] conversions at the head of the loop body, in the
    order of the source: id, start time, end time.  Each returns the number
    it converts, so the row is built from the fields of [election]. *)
Definition electionNumbers (election : Contract.ElectionInfo) : M Page unit :=
  toNumber (Contract.infoId election);;
  toNumber (Contract.infoStartTime election);;
  toNumber (Contract.infoEndTime election);;
  ret tt.

(** [loadActiveElections()], with [now] the clock value it reads.  The two
    click handlers bound after the table is written are the [onClick] of
    the rows' controls. *)
Definition loadActiveElections (now : Z) : M Page unit :=
  updateElections Loading;;
  tryCatch
    (let* electionCount := getElectionCount in
     let* count := toNumber electionCount in
     if count =? 0 then updateElections NoElections
     else
       let* electionsHtml :=
         forEachM
           (fun electionsHtml i =>
              let* election := getElection i in
              electionNumbers election;;
              let* row := electionRow election now in
              ret (electionsHtml ++ [row]))
           (upTo count) [] in
       updateElections (electionsTable electionsHtml))
    (fun error => updateElections (LoadError error)).

(** [viewElectionResults(electionId)] *)
Definition viewElectionResults (electionId : Z) : M Page unit :=
  tryCatch
    (let* election := getElection electionId in
     let candidateCount := Contract.infoCandidateCount election in
     let* (candidates, totalVotes) :=
       forEachM
         (fun '(candidates, totalVotes) i =>
            let* candidate := getCandidate electionId i in
            let votes := Contract.voteCount candidate in
            ret (candidates ++ [candidateData candidate],
                 totalVotes + votes))
         (upTo candidateCount) ([], 0) in
     let candidates := jsSort byVotesDescending candidates in
     let rows :=
       map (fun candidate =>
              {| resId := cdId candidate; resName := cdName candidate;
                 resParty := cdParty candidate;
                 resVotes := cdVotes candidate;
                 resPercentage :=
                   percentageOf 2 (cdVotes candidate) totalVotes |})
           candidates in
     updateElections
       (Results {| resultsTitle := Contract.infoName election;
                   resultsStart := Contract.infoStartTime election;
                   resultsEnd := Contract.infoEndTime election;
                   resultsRows := rows;
                   resultsTotal := totalVotes |}))
    (fun error => updateElections (ResultsError error)).

(** One radio button of the ballot: its value is the candidate id. *)
Record BallotOption : Type := mkBallotOption {
  optionId : Z;
  optionName : string;
  optionParty : string
}.

(** The ballot form: title, period, options and the hidden election id.
    The record is the form the browser builds from the template of
    [showVotingBallot] when the strings written into it (the election's
    name, the candidates' names and parties) are plain text; they are
    written unescaped, so a string with markup can add elements the record
    does not list.  The statement about what the ballot offers is made for
    plain strings. *)
Record Ballot : Type := mkBallot {
  ballotName : string;
  ballotStart : Z;
  ballotEnd : Z;
  ballotOptions : list BallotOption;
  ballotElectionId : Z
}.

(** What [#voteStatus] shows: nothing, [Processing your vote...],
    [Please select a candidate.], the success message, or
    [Error: ${error.message}]. *)
Inductive VoteStatus : Type :=
| NoStatus
| Processing
| PleaseSelect
| Recorded
| VoteFailed (e : Error).

(** A [vote(electionId, candidateId, {from})] transaction handed to the
    wallet. *)
Record VoteCall : Type := mkVoteCall {
  sentElection : Z;
  sentCandidate : Z;
  sentFrom : string
}.

(** What [#activeElections] holds once the ballot is in play. *)
Inductive BallotView : Type :=
| ElectionsList (v : ElectionsView)
| BallotForm (b : Ballot)
| BallotError (e : Error).

(** The voter's page with the ballot form: the account, the view, the value
    of the checked radio button if any, the status line and submit button of
    the form, and the vote transactions sent so far, oldest first (the call
    log of the world has the view calls).  The reload that [submitVote]
    schedules three seconds after a success is not modelled. *)
Record BallotPage : Type := mkBallotPage {
  voter : string;
  ballotView : BallotView;
  checkedCandidate : option Z;
  voteStatus : VoteStatus;
  submitDisabled : bool;
  sentVotes : list VoteCall
}.

Definition withBallotView (v : BallotView) (p : BallotPage) : BallotPage :=
  {| voter := voter p; ballotView := v;
     checkedCandidate := checkedCandidate p; voteStatus := voteStatus p;
     submitDisabled := submitDisabled p; sentVotes := sentVotes p |}.

Definition withVoteStatus (s : VoteStatus) (p : BallotPage) : BallotPage :=
  {| voter := voter p; ballotView := ballotView p;
     checkedCandidate := checkedCandidate p; voteStatus := s;
     submitDisabled := submitDisabled p; sentVotes := sentVotes p |}.

Definition withSubmitDisabled (b : bool) (p : BallotPage) : BallotPage :=
  {| voter := voter p; ballotView := ballotView p;
     checkedCandidate := checkedCandidate p; voteStatus := voteStatus p;
     submitDisabled := b; sentVotes := sentVotes p |}.

(** A freshly rendered ballot: nothing checked, empty status, submit
    enabled. *)
Definition renderBallot (b : Ballot) (p : BallotPage) : BallotPage :=
  {| voter := voter p; ballotView := BallotForm b;
     checkedCandidate := None; voteStatus := NoStatus;
     submitDisabled := false; sentVotes := sentVotes p |}.

(** The voter checks the radio button of candidate [id]; only a button the
    ballot shows can be checked. *)
Definition checkCandidate (id : Z) (p : BallotPage) : BallotPage :=
  match ballotView p with
  | BallotForm b =>
      if bool_decide (id ∈ map optionId (ballotOptions b))
      then {| voter := voter p; ballotView := ballotView p;
              checkedCandidate := Some id; voteStatus := voteStatus p;
              submitDisabled := submitDisabled p; sentVotes := sentVotes p |}
      else p
  | _ => p
  end.

(** [instance.vote(electionId, candidateId, {from: this.account})]: the
    transaction is recorded as sent; the ledger changes only when the
    contract accepts it. *)
Definition sendVote (electionId candidateId : Z) (from : string)
  : M BallotPage unit :=
  fun w =>
    let p :=
      {| voter := voter (page w); ballotView := ballotView (page w);
         checkedCandidate := checkedCandidate (page w);
         voteStatus := voteStatus (page w);
         submitDisabled := submitDisabled (page w);
         sentVotes := sentVotes (page w) ++
                      [{| sentElection := electionId;
                          sentCandidate := candidateId;
                          sentFrom := from |}] |} in
    match Contract.vote (chain w) electionId from candidateId with
    | Ok l' => (Ok tt, mkWorld l' (calls w) p)
    | Throw e => (Throw e, mkWorld (chain w) (calls w) p)
    end.

(** [showVotingBallot(electionId)].  The times, the candidate count and the
    candidate ids are the values of the [toNumber()] conversions, which
    return them unchanged below 2^53; their exception from 2^53 on is not
    part of this definition, and the statement about what the ballot offers
    is made for numbers below that bound. *)
Definition showVotingBallot (electionId : Z) : M BallotPage unit :=
  tryCatch
    (let* election := getElection electionId in
     let candidateCount := Contract.infoCandidateCount election in
     let* ballotHtml :=
       forEachM
         (fun ballotHtml i =>
            let* candidate := getCandidate electionId i in
            ret (ballotHtml ++
                 [{| optionId := Contract.candidateId candidate;
                     optionName := Contract.candidateName candidate;
                     optionParty := Contract.candidateParty candidate |}]))
         (upTo candidateCount) [] in
     modifyPage
       (renderBallot
          {| ballotName := Contract.infoName election;
             ballotStart := Contract.infoStartTime election;
             ballotEnd := Contract.infoEndTime election;
             ballotOptions := ballotHtml;
             ballotElectionId := electionId |}))
    (fun error => modifyPage (withBallotView (BallotError error))).

(** [submitVote()], the submit handler of the ballot form.  The two
    [parseInt] calls read back the election id of the hidden input and the
    value of the checked radio button; with no button checked the candidate
    id is NaN.  Without a ballot in the page there is no form to submit. *)
Definition submitVote : M BallotPage unit :=
  let* p := getPage in
  match ballotView p with
  | BallotForm b =>
      tryCatch
        (modifyPage (withVoteStatus Processing);;
         modifyPage (withSubmitDisabled true);;
         match checkedCandidate p with
         | None =>
             modifyPage (withVoteStatus PleaseSelect);;
             modifyPage (withSubmitDisabled false)
         | Some candidateId =>
             sendVote (ballotElectionId b) candidateId (voter p);;
             modifyPage (withVoteStatus Recorded)
         end)
        (fun error =>
           modifyPage (withVoteStatus (VoteFailed error));;
           modifyPage (withSubmitDisabled false))
  | _ => ret tt
  end.

End VoterApp.

(** The [UI] helper object of app.js. *)
Module UI.

(** [UI.getNetworkName(chainId)] *)
Definition getNetworkName (chainId : string) : string :=
  if String.eqb chainId "0x1" then "Ethereum Mainnet"
  else if String.eqb chainId "0x3" then "Ropsten Testnet"
  else if String.eqb chainId "0x4" then "Rinkeby Testnet"
  else if String.eqb chainId "0x5" then "Goerli Testnet"
  else if String.eqb chainId "0x539" then "Ganache Local"
  else String.append "Local Network (" (String.append chainId ")").

End UI.

(** ** Vocabulary of the statements *)

(** The window test of both front ends: [now >= startTime && now < endTime]. *)
Definition inWindow (startTime endTime now : Z) : Prop :=
  startTime <= now /\ now < endTime.


(** What a loop of [getCandidate(electionId, i)] calls over [ids] reads from
    a ledger: the candidates, or the first rejection. *)
Fixpoint fetchCandidates (l : Contract.Ledger) (eid : Z) (ids : list Z)
  : Result (list Contract.Candidate) :=
  match ids with
  | [] => Ok []
  | i :: ids' =>
      match Contract.getCandidate l eid i with
      | Throw e => Throw e
      | Ok c =>
          match fetchCandidates l eid ids' with
          | Ok cs => Ok (c :: cs)
          | Throw e => Throw e
          end
      end
  end.

(** The calls such a loop issues: one per id, up to the first rejection. *)
Fixpoint fetchLog (l : Contract.Ledger) (eid : Z) (ids : list Z) : list Call :=
  match ids with
  | [] => []
  | i :: ids' =>
      CallGetCandidate eid i ::
      match Contract.getCandidate l eid i with
      | Throw _ => []
      | Ok _ => fetchLog l eid ids'
      end
  end.

Definition sumVotes (cs : list Contract.Candidate) : Z :=
  foldr (fun c t => Contract.voteCount c + t) 0 cs.

(** One turn of a tally loop on its two loop variables: push the fetched
    candidate's data, add its votes. *)
Definition tallyStep (acc : list CandidateData * Z) (c : Contract.Candidate)
  : list CandidateData * Z :=
  (acc.1 ++ [candidateData c], acc.2 + Contract.voteCount c).

(** The ranked list and the total that a tally of election [eid] over
    [1 .. n] reads off a ledger. *)
Definition tallyOf (l : Contract.Ledger) (eid n : Z)
  : Result (list CandidateData * Z) :=
  match fetchCandidates l eid (upTo n) with
  | Ok cs => Ok (jsSort byVotesDescending (map candidateData cs), sumVotes cs)
  | Throw e => Throw e
  end.



(** The row of the admin's results table for a candidate. *)
Definition adminRow (c : CandidateData) : AdminApp.ResultRow :=
  {| AdminApp.resId := cdId c; AdminApp.resName := cdName c;
     AdminApp.resParty := cdParty c; AdminApp.resVotes := cdVotes c |}.

(** [byVotesDescending] on rows of the admin's results table. *)
Definition byRowVotesDescending (a b : AdminApp.ResultRow) : Z :=
  AdminApp.resVotes b - AdminApp.resVotes a.

(** One turn of the loop of [buildResultsHTML] on its two loop variables. *)
Definition resultsStep (acc : list AdminApp.ResultRow * Z)
    (c : Contract.Candidate) : list AdminApp.ResultRow * Z :=
  (acc.1 ++ [adminRow (candidateData c)], acc.2 + Contract.voteCount c).






(** A ledger whose only election has no candidate yet. *)
Definition emptyBallotLedger : Contract.Ledger :=
  {| Contract.elections :=
       [{| Contract.electionId := 1; Contract.electionName := "Empty";
           Contract.startTime := 60; Contract.endTime := 3660;
           Contract.candidates := [] |}];
     Contract.voteRecords := [];
     Contract.blockTime := 100 |}.

(** A newly created election at time 50, before its start at 60. *)
Definition openBallotElection : Contract.Election :=
  {| Contract.electionId := 1; Contract.electionName := "Empty";
     Contract.startTime := 60; Contract.endTime := 3660;
     Contract.candidates := [] |}.

Definition openBallotLedger : Contract.Ledger :=
  {| Contract.elections := [openBallotElection];
     Contract.voteRecords := [];
     Contract.blockTime := 50 |}.

(** The election of scenario A before anybody voted. *)
Definition freshBoardLedger : Contract.Ledger :=
  {| Contract.elections :=
       [{| Contract.electionId := 1;
           Contract.electionName := "Board Election";
           Contract.startTime := 60;
           Contract.endTime := 3660;
           Contract.candidates :=
             [{| Contract.candidateId := 1; Contract.candidateName := "Alice";
                 Contract.candidateParty := "Red"; Contract.voteCount := 0 |};
              {| Contract.candidateId := 2; Contract.candidateName := "Bob";
                 Contract.candidateParty := "Blue"; Contract.voteCount := 0 |}]
         |}];
     Contract.voteRecords := [];
     Contract.blockTime := 100 |}.

(** The entry [collectCandidates] takes from form index [i]: the row has to
    be in the page with both inputs filled in. *)
Definition completeRow (p : AdminApp.Page) (i : Z)
  : option AdminApp.CandidateEntry :=
  match AdminApp.candidateRows (AdminApp.form p) !! i with
  | Some (name, party) =>
      if truthy name && truthy party
      then Some {| AdminApp.entryName := name; AdminApp.entryParty := party |}
      else None
  | None => None
  end.

(** A filled-in election form: rows 1 to 3, the second without a name. *)
Definition sampleForm (startDate endDate : Z) : AdminApp.Form :=
  {| AdminApp.formElectionName := "Board Election";
     AdminApp.formStart := startDate;
     AdminApp.formEnd := endDate;
     AdminApp.candidateRows :=
       <[1 := ("Alice", "Red")]>
         (<[2 := ("", "Green")]> (<[3 := ("Bob", "Blue")]> ∅)) |}.

Definition samplePage (startDate endDate : Z) : AdminApp.Page :=
  AdminApp.withForm 3 (sampleForm startDate endDate) AdminApp.initialPage.

(** The same form after rows 2 and 3 were removed. *)
Definition loneCandidatePage : AdminApp.Page :=
  AdminApp.removeCandidate 3
    (AdminApp.removeCandidate 2 (samplePage 2000 5600)).




(** The admin's page with the sample form on a chain whose clock reads
    [blockTime]. *)
Definition formWorld (blockTime startDate endDate : Z)
  : World AdminApp.Page :=
  mkWorld (Contract.emptyLedger blockTime) [] (samplePage startDate endDate).

(** The candidate the contract stores for a submitted entry. *)
Definition newCandidate (cid : Z) (c : AdminApp.CandidateEntry)
  : Contract.Candidate :=
  {| Contract.candidateId := cid;
     Contract.candidateName := AdminApp.entryName c;
     Contract.candidateParty := AdminApp.entryParty c;
     Contract.voteCount := 0 |}.

(** The candidates stored for a list of entries submitted in order to an
    election that already has [base] candidates. *)
Fixpoint newCandidates (base : Z) (cs : list AdminApp.CandidateEntry)
  : list Contract.Candidate :=
  match cs with
  | [] => []
  | c :: cs' => newCandidate (base + 1) c :: newCandidates (base + 1) cs'
  end.

Definition withCandidates (e : Contract.Election)
    (cs : list Contract.Candidate) : Contract.Election :=
  {| Contract.electionId := Contract.electionId e;
     Contract.electionName := Contract.electionName e;
     Contract.startTime := Contract.startTime e;
     Contract.endTime := Contract.endTime e;
     Contract.candidates := cs |}.

(** The call that submits one entry. *)
Definition addCall (eid : Z) (c : AdminApp.CandidateEntry) : Call :=
  CallAddCandidate eid (AdminApp.entryName c) (AdminApp.entryParty c).

(** The three tests of [validateFormData] that reject a request. *)
Definition rejects (formData : AdminApp.FormData) (now : Z) : bool :=
  (AdminApp.fdStartDate formData <? now) ||
  (AdminApp.fdEndDate formData <=? AdminApp.fdStartDate formData) ||
  (Z.of_nat (length (AdminApp.fdCandidates formData)) <? 2).

(** A world after further calls were logged, everything else as before. *)
Definition logged {U} (w : World U) (cs : list Call) : World U :=
  mkWorld (chain w) (calls w ++ cs) (page w).

(** A ledger built through the contract's own operations: the election of
    scenario A with one vote for the second candidate, cast at time 100. *)
Definition boardLedger : Contract.Ledger :=
  {| Contract.elections :=
       [{| Contract.electionId := 1;
           Contract.electionName := "Board Election";
           Contract.startTime := 60;
           Contract.endTime := 3660;
           Contract.candidates :=
             [{| Contract.candidateId := 1; Contract.candidateName := "Alice";
                 Contract.candidateParty := "Red"; Contract.voteCount := 0 |};
              {| Contract.candidateId := 2; Contract.candidateName := "Bob";
                 Contract.candidateParty := "Blue"; Contract.voteCount := 1 |}]
         |}];
     Contract.voteRecords :=
       [{| Contract.voteElection := 1; Contract.voterIdentity := "0xA";
           Contract.voteCandidate := 2; Contract.voteTimestamp := 100 |}];
     Contract.blockTime := 100 |}.

Definition boardElection : Contract.Election :=
  {| Contract.electionId := 1;
     Contract.electionName := "Board Election";
     Contract.startTime := 60;
     Contract.endTime := 3660;
     Contract.candidates :=
       [{| Contract.candidateId := 1; Contract.candidateName := "Alice";
           Contract.candidateParty := "Red"; Contract.voteCount := 0 |};
        {| Contract.candidateId := 2; Contract.candidateName := "Bob";
           Contract.candidateParty := "Blue"; Contract.voteCount := 1 |}] |}.




(** An election whose name is a button of the class the vote handler is
    bound to. *)
Definition markupElection : Contract.Election :=
  {| Contract.electionId := 1;
     Contract.electionName :=
       "<button class='btn-vote' data-id='1'>Vote Now</button>";
     Contract.startTime := 60; Contract.endTime := 3660;
     Contract.candidates := [] |}.

Definition markupLedger : Contract.Ledger :=
  {| Contract.elections := [markupElection];
     Contract.voteRecords := [];
     Contract.blockTime := 5000 |}.

(** An election that starts at 2^53. *)
Definition farFutureLedger : Contract.Ledger :=
  {| Contract.elections :=
       [{| Contract.electionId := 1; Contract.electionName := "Far";
           Contract.startTime := 2 ^ 53; Contract.endTime := 2 ^ 53 + 1;
           Contract.candidates := [] |}];
     Contract.voteRecords := [];
     Contract.blockTime := 100 |}.

(** An election with three candidates after four votes: two for the second
    candidate, one each for the first and the third, who are tied. *)
Definition tiedElection : Contract.Election :=
  {| Contract.electionId := 1;
     Contract.electionName := "Council";
     Contract.startTime := 60;
     Contract.endTime := 3660;
     Contract.candidates :=
       [{| Contract.candidateId := 1; Contract.candidateName := "Alice";
           Contract.candidateParty := "Red"; Contract.voteCount := 1 |};
        {| Contract.candidateId := 2; Contract.candidateName := "Bob";
           Contract.candidateParty := "Blue"; Contract.voteCount := 2 |};
        {| Contract.candidateId := 3; Contract.candidateName := "Carol";
           Contract.candidateParty := "Green"; Contract.voteCount := 1 |}] |}.

Definition tiedLedger : Contract.Ledger :=
  {| Contract.elections := [tiedElection];
     Contract.voteRecords :=
       [{| Contract.voteElection := 1; Contract.voterIdentity := "0xA";
           Contract.voteCandidate := 2; Contract.voteTimestamp := 100 |};
        {| Contract.voteElection := 1; Contract.voterIdentity := "0xB";
           Contract.voteCandidate := 3; Contract.voteTimestamp := 100 |};
        {| Contract.voteElection := 1; Contract.voterIdentity := "0xC";
           Contract.voteCandidate := 1; Contract.voteTimestamp := 100 |};
        {| Contract.voteElection := 1; Contract.voterIdentity := "0xD";
           Contract.voteCandidate := 2; Contract.voteTimestamp := 100 |}];
     Contract.blockTime := 100 |}.


Definition adminWorld (l : Contract.Ledger) : World AdminApp.Page :=
  mkWorld l [] AdminApp.initialPage.

Definition voterWorld (l : Contract.Ledger) (who : string)
  : World VoterApp.Page :=
  mkWorld l [] {| VoterApp.account := who;
                  VoterApp.activeElections := VoterApp.Untouched |}.

(** ** Vocabulary of the further properties *)

(** The calls that only read the contract. *)
Definition isViewCall (c : Call) : bool :=
  match c with
  | CallCreateElection _ _ _ => false
  | CallAddCandidate _ _ _ => false
  | _ => true
  end.

(** From [w] to [w'] the ledger is the same and the calls issued in between
    are all reads. *)
Definition sameLedger {U} (w w' : World U) : Prop :=
  chain w' = chain w /\
  exists new, calls w' = calls w ++ new /\
              Forall (fun c => isViewCall c = true) new.

(** A computation that takes every world to one related to it by [R],
    whether it returns or throws. *)
Definition keeps {U A} (R : World U -> World U -> Prop) (c : M U A) : Prop :=
  forall w, R w (c w).2.

(** A computation that returns normally from every world. *)
Definition neverThrows {U A} (c : M U A) : Prop :=
  forall w, exists a, (c w).1 = Ok a.

(** The part of the admin's page that belongs to the creation form: the row
    counter, the form, the status line and the create button. *)
Definition formPart (p : AdminApp.Page)
  : Z * AdminApp.Form * option (AdminApp.Message * string) * bool :=
  (AdminApp.candidateCounter p, AdminApp.form p, AdminApp.electionStatus p,
   AdminApp.createDisabled p).

(** A refresh of the admin's page: reads only, and the creation form is left
    as it was. *)
Definition refreshed (w w' : World AdminApp.Page) : Prop :=
  sameLedger w w' /\ formPart (page w') = formPart (page w).

(** A refresh that also leaves the elections table as it was. *)
Definition tallyRefreshed (w w' : World AdminApp.Page) : Prop :=
  refreshed w w' /\
  AdminApp.activeElections (page w') = AdminApp.activeElections (page w).


(** From [w] to [w'] the voter's page saw reads only: same ledger, same
    account, and no vote transaction sent. *)
Definition noVoteSent (w w' : World VoterApp.BallotPage) : Prop :=
  sameLedger w w' /\
  VoterApp.voter (page w') = VoterApp.voter (page w) /\
  VoterApp.sentVotes (page w') = VoterApp.sentVotes (page w).

(** No election of the ledger is inside its voting window at [now]. *)
Definition noneActive (l : Contract.Ledger) (now : Z) : Prop :=
  forall i info,
    Contract.getElection l i = Ok info ->
    ~ inWindow (Contract.infoStartTime info) (Contract.infoEndTime info) now.

(** The voter's page with a ballot form in it. *)
Definition ballotWorld (l : Contract.Ledger) (who : string)
  : World VoterApp.BallotPage :=
  mkWorld l []
    {| VoterApp.voter := who;
       VoterApp.ballotView := VoterApp.ElectionsList VoterApp.Untouched;
       VoterApp.checkedCandidate := None;
       VoterApp.voteStatus := VoterApp.NoStatus;
       VoterApp.submitDisabled := false;
       VoterApp.sentVotes := [] |}.

(** From [w] to [w'] the id discipline of the ledger, if it held, still
    holds. *)
Definition disciplineKept (w w' : World AdminApp.Page) : Prop :=
  Contract.sequentialIds (chain w) -> Contract.sequentialIds (chain w').


(** The call that submits the election of a form. *)
Definition createCall (p : AdminApp.Page) : Call :=
  CallCreateElection (AdminApp.formElectionName (AdminApp.form p))
    (AdminApp.formStart (AdminApp.form p))
    (AdminApp.formEnd (AdminApp.form p)).



(** The radio button the ballot shows for a candidate. *)
Definition ballotOption (c : Contract.Candidate) : VoterApp.BallotOption :=
  {| VoterApp.optionId := Contract.candidateId c;
     VoterApp.optionName := Contract.candidateName c;
     VoterApp.optionParty := Contract.candidateParty c |}.


(** The ballot [showVotingBallot] renders for an election and its fetched
    candidates. *)
Definition ballotOf (electionId : Z) (info : Contract.ElectionInfo)
    (cs : list Contract.Candidate) : VoterApp.Ballot :=
  {| VoterApp.ballotName := Contract.infoName info;
     VoterApp.ballotStart := Contract.infoStartTime info;
     VoterApp.ballotEnd := Contract.infoEndTime info;
     VoterApp.ballotOptions := map ballotOption cs;
     VoterApp.ballotElectionId := electionId |}.

(** The page after a vote transaction was handed to the wallet. *)
Definition voteSent (eid cid : Z) (p : VoterApp.BallotPage)
  : VoterApp.BallotPage :=
  {| VoterApp.voter := VoterApp.voter p;
     VoterApp.ballotView := VoterApp.ballotView p;
     VoterApp.checkedCandidate := VoterApp.checkedCandidate p;
     VoterApp.voteStatus := VoterApp.voteStatus p;
     VoterApp.submitDisabled := VoterApp.submitDisabled p;
     VoterApp.sentVotes :=
       VoterApp.sentVotes p ++
       [{| VoterApp.sentElection := eid; VoterApp.sentCandidate := cid;
           VoterApp.sentFrom := VoterApp.voter p |}] |}.


(** The world with the page changed by something the user does. *)
Definition userDoes {U} (f : U -> U) (w : World U) : World U :=
  mkWorld (chain w) (calls w) (f (page w)).


(** The user typing in the two inputs of candidate row [i]; a row that is
    not in the page has no inputs to type in. *)
Definition typeCandidate (i : Z) (name party : string) (p : AdminApp.Page)
  : AdminApp.Page :=
  AdminApp.withForm (AdminApp.candidateCounter p)
    {| AdminApp.formElectionName := AdminApp.formElectionName (AdminApp.form p);
       AdminApp.formStart := AdminApp.formStart (AdminApp.form p);
       AdminApp.formEnd := AdminApp.formEnd (AdminApp.form p);
       AdminApp.candidateRows :=
         alter (fun _ => (name, party)) i
           (AdminApp.candidateRows (AdminApp.form p)) |} p.

(** The user typing the election's name and choosing its two dates, given
    as the epoch seconds [getFormData] reads from them; the candidate rows
    are left as they are. *)
Definition typeElection (name : string) (startDate endDate : Z)
    (p : AdminApp.Page) : AdminApp.Page :=
  AdminApp.withForm (AdminApp.candidateCounter p)
    {| AdminApp.formElectionName := name;
       AdminApp.formStart := startDate;
       AdminApp.formEnd := endDate;
       AdminApp.candidateRows := AdminApp.candidateRows (AdminApp.form p) |} p.

(** The row counter is at least 1 and every candidate row of the page has a
    number the loop of [collectCandidates] visits. *)
Definition rowsNumbered (p : AdminApp.Page) : Prop :=
  1 <= AdminApp.candidateCounter p /\
  forall i, is_Some (AdminApp.candidateRows (AdminApp.form p) !! i) ->
            1 <= i <= AdminApp.candidateCounter p.

(** From [w] to [w'] the numbering of the rows, if it was right, still is. *)
Definition numberingKept (w w' : World AdminApp.Page) : Prop :=
  rowsNumbered (page w) -> rowsNumbered (page w').

(** The worlds a session of the admin page can be in: the page as loaded,
    then any sequence of clicks on Add and on a row's remove button, of
    typing in a row, of typing the election's name and dates, of the form
    being submitted, of the elections list, a results page or the live
    tally being loaded, of the timer firing, and of the ledger moving on
    under other accounts' transactions. *)
Inductive adminSession : World AdminApp.Page -> Prop :=
| session_start l : adminSession (mkWorld l [] AdminApp.initialPage)
| session_add w :
    adminSession w -> adminSession (userDoes AdminApp.addMoreCandidates w)
| session_remove i w :
    adminSession w -> adminSession (userDoes (AdminApp.removeCandidate i) w)
| session_type i name party w :
    adminSession w -> adminSession (userDoes (typeCandidate i name party) w)
| session_election name startDate endDate w :
    adminSession w ->
    adminSession (userDoes (typeElection name startDate endDate) w)
| session_create now later w :
    adminSession w -> adminSession (AdminApp.createElection now later w).2
| session_list now w :
    adminSession w -> adminSession (AdminApp.loadActiveElections now w).2
| session_results id w :
    adminSession w -> adminSession (AdminApp.viewElectionResults id w).2
| session_tally id w :
    adminSession w -> adminSession (AdminApp.updateLiveTally id w).2
| session_tick now w :
    adminSession w -> adminSession (AdminApp.liveTallyTick now w).2
| session_ledger l w :
    adminSession w -> adminSession (mkWorld l (calls w) (page w)).

(** A session on a new chain whose clock reads 900: a second row is added,
    both rows and the election's name and dates are typed in. *)
Definition filledSession : World AdminApp.Page :=
  userDoes (typeElection "Board Election" 2000 5600)
    (userDoes (typeCandidate 2 "Bob" "Blue")
       (userDoes (typeCandidate 1 "Alice" "Red")
          (userDoes AdminApp.addMoreCandidates
             (mkWorld (Contract.emptyLedger 900) [] AdminApp.initialPage)))).

(** The form is submitted at time 1000. *)
Definition createdSession : World AdminApp.Page :=
  (AdminApp.createElection 1000 1000 filledSession).2.

(** On the reset form two rows are added, the second row is removed and
    the third is typed in. *)
Definition laterSession : World AdminApp.Page :=
  userDoes (typeCandidate 3 "Carol" "Green")
    (userDoes (AdminApp.removeCandidate 2)
       (userDoes AdminApp.addMoreCandidates
          (userDoes AdminApp.addMoreCandidates createdSession))).

(** ** The monad and its loops *)



Lemma logged_nil {U} (w : World U) : logged w [] = w.
Proof. destruct w. unfold logged. cbn. now rewrite app_nil_r. Qed.

(** A loop whose turn is one [getCandidate] followed by a pure update of the
    loop variables reads exactly [fetchCandidates] and logs [fetchLog]. *)
Lemma forEachM_fetch {U S} (eid : Z) (body : S -> Z -> M U S)
    (step : S -> Contract.Candidate -> S) :
  (forall acc i w,
      body acc i w = bind (getCandidate eid i) (fun c => ret (step acc c)) w) ->
  forall ids acc w,
    forEachM body ids acc w =
    (match fetchCandidates (chain w) eid ids with
     | Ok cs => Ok (foldl step acc cs)
     | Throw e => Throw e
     end,
     logged w (fetchLog (chain w) eid ids)).
Proof.
  intros Hbody ids. induction ids as [|i ids IH]; intros acc w.
  - cbn. unfold ret. now rewrite logged_nil.
  - cbn [forEachM fetchCandidates fetchLog]. unfold bind at 1.
    rewrite Hbody. unfold bind, getCandidate, viewCall, ret.
    destruct (Contract.getCandidate (chain w) eid i) as [c|e] eqn:Hc.
    + rewrite IH. cbn [chain logCall]. f_equal.
      * now destruct (fetchCandidates (chain w) eid ids).
      * unfold logged, logCall. cbn. now rewrite <- app_assoc.
    + reflexivity.
Qed.

(** ** Stable sorting *)

Section JsSortFacts.
Context {A : Type} (cmp : A -> A -> Z).

Lemma sortInsert_perm x l : sortInsert cmp x l ≡ₚ x :: l.
Proof.
  induction l as [|y l IH]; cbn; [done|].
  destruct (cmp x y <=? 0); [done|].
  rewrite IH. apply perm_swap.
Qed.

Lemma jsSort_perm l : jsSort cmp l ≡ₚ l.
Proof.
  induction l as [|x l IH]; cbn; [done|].
  unfold jsSort in IH. now rewrite sortInsert_perm, IH.
Qed.

(** Sorting commutes with a relabelling that the comparator ignores. *)
Lemma jsSort_map {B} (cmp' : B -> B -> Z) (f : A -> B) l :
  (forall a b, cmp' (f a) (f b) = cmp a b) ->
  map f (jsSort cmp l) = jsSort cmp' (map f l).
Proof.
  intros Hf. induction l as [|x l IH]; cbn; [done|].
  unfold jsSort in IH. rewrite <- IH. clear IH.
  induction (foldr (sortInsert cmp) [] l) as [|y s IHs]; cbn; [done|].
  rewrite Hf. destruct (cmp x y <=? 0); cbn; [done|]. now rewrite IHs.
Qed.
End JsSortFacts.



(** ** The ledger's id discipline *)


Lemma updateElection_ids eid f es :
  (forall e, Contract.electionId (f e) = Contract.electionId e) ->
  map Contract.electionId (Contract.updateElection eid f es) =
  map Contract.electionId es.
Proof.
  intros Hid. unfold Contract.updateElection. rewrite map_map.
  apply map_ext. intros e. now destruct (bool_decide _).
Qed.

Lemma sequentialIds_empty now :
  Contract.sequentialIds (Contract.emptyLedger now).
Proof. split; [reflexivity|constructor]. Qed.

Lemma sequentialIds_mineAt t l :
  Contract.sequentialIds l -> Contract.sequentialIds (Contract.mineAt t l).
Proof. now intros [? ?]. Qed.



(** [vote] keeps the discipline: it changes vote counts only. *)
Lemma sequentialIds_vote l eid who cid l' :
  Contract.sequentialIds l ->
  Contract.vote l eid who cid = Ok l' ->
  Contract.sequentialIds l'.
Proof.
  intros [Hids Hall]. unfold Contract.vote.
  destruct (Contract.findElection l eid) as [e0|]; [|done].
  destruct (negb _); [done|]. destruct (Contract.hasVoted l eid who); [done|].
  destruct (Contract.findCandidate e0 cid); [|done]. intros [= <-].
  split.
  - unfold Contract.getElectionCount in *. cbn.
    rewrite updateElection_ids by done.
    unfold Contract.updateElection. now rewrite length_map.
  - cbn. unfold Contract.updateElection. apply Forall_map.
    eapply Forall_impl; [exact Hall|]. intros e He. cbn.
    destruct (bool_decide (Contract.electionId e = eid)); [|done].
    unfold Contract.sequentialCandidates, Contract.candidateCount in *. cbn.
    rewrite map_map, length_map, <- He. apply map_ext.
    intros c'. now destruct (bool_decide _).
Qed.

(** ** Reading candidates from the ledger *)



Lemma find_candidate_by_id cs c :
  NoDup (map Contract.candidateId cs) -> c ∈ cs ->
  find (fun c' => bool_decide (Contract.candidateId c' = Contract.candidateId c))
       cs = Some c.
Proof.
  induction cs as [|a cs IH]; intros Hnd Hin.
  - now apply elem_of_nil in Hin.
  - cbn in Hnd. apply NoDup_cons in Hnd as [Ha Hnd]. cbn.
    apply elem_of_cons in Hin as [->|Hin].
    + now rewrite bool_decide_eq_true_2.
    + rewrite bool_decide_eq_false_2; [now apply IH|].
      intros Heq. apply Ha. rewrite Heq.
      apply list_elem_of_fmap. now exists c.
Qed.






(** ** The tally *)

Lemma foldl_tallyStep cs cands total :
  foldl tallyStep (cands, total) cs =
  (cands ++ map candidateData cs, total + sumVotes cs).
Proof.
  revert cands total. induction cs as [|c cs IH]; intros cands total.
  - cbn. now rewrite app_nil_r, Z.add_0_r.
  - cbn [foldl].
    change (tallyStep (cands, total) c)
      with (cands ++ [candidateData c], total + Contract.voteCount c).
    rewrite IH. unfold sumVotes. cbn. rewrite <- app_assoc. cbn.
    f_equal. lia.
Qed.

(** [getCandidatesData] returns [tallyOf] of the ledger it runs on, logs its
    reads and changes nothing else. *)
Lemma getCandidatesData_tallyOf eid n (w : World AdminApp.Page) :
  AdminApp.getCandidatesData eid n w =
  (tallyOf (chain w) eid n, logged w (fetchLog (chain w) eid (upTo n))).
Proof.
  unfold AdminApp.getCandidatesData, bind.
  rewrite (forEachM_fetch eid _ tallyStep) by (intros [? ?] ? ?; reflexivity).
  unfold tallyOf. destruct (fetchCandidates (chain w) eid (upTo n)); [|done].
  now rewrite foldl_tallyStep.
Qed.






(** The sample ledgers are states the contract reaches by its own
    operations. *)
Example freshBoardLedger_reachable :
  exists l1 l2 l3,
    Contract.createElection (Contract.emptyLedger 0) "Board Election" 60 3660
      = Ok (1, l1) /\
    Contract.addCandidate l1 1 "Alice" "Red" = Ok (1, l2) /\
    Contract.addCandidate l2 1 "Bob" "Blue" = Ok (2, l3) /\
    Contract.mineAt 100 l3 = freshBoardLedger.
Proof. eexists _, _, _. repeat split. Qed.

Example boardLedger_reachable :
  Contract.vote freshBoardLedger 1 "0xA" 2 = Ok boardLedger /\
  Contract.vote boardLedger 1 "0xA" 1 = Throw AlreadyVoted.
Proof. split; reflexivity. Qed.

Example tiedLedger_reachable :
  exists l1 l2 l3 l4 l5 l6 l7,
    Contract.createElection (Contract.emptyLedger 0) "Council" 60 3660
      = Ok (1, l1) /\
    Contract.addCandidate l1 1 "Alice" "Red" = Ok (1, l2) /\
    Contract.addCandidate l2 1 "Bob" "Blue" = Ok (2, l3) /\
    Contract.addCandidate l3 1 "Carol" "Green" = Ok (3, l4) /\
    Contract.vote (Contract.mineAt 100 l4) 1 "0xA" 2 = Ok l5 /\
    Contract.vote l5 1 "0xB" 3 = Ok l6 /\
    Contract.vote l6 1 "0xC" 1 = Ok l7 /\
    Contract.vote l7 1 "0xD" 2 = Ok tiedLedger.
Proof. eexists _, _, _, _, _, _, _. repeat split. Qed.

(** ** Live tally versus final results *)

Lemma foldl_resultsStep cs rows total :
  foldl resultsStep (rows, total) cs =
  (rows ++ map adminRow (map candidateData cs), total + sumVotes cs).
Proof.
  revert rows total. induction cs as [|c cs IH]; intros rows total.
  - cbn. now rewrite app_nil_r, Z.add_0_r.
  - cbn [foldl].
    change (resultsStep (rows, total) c)
      with (rows ++ [adminRow (candidateData c)],
            total + Contract.voteCount c).
    rewrite IH. unfold sumVotes. cbn. rewrite <- app_assoc. cbn.
    f_equal. lia.
Qed.

(** [buildResultsHTML] lists what the loop reads, in the order read. *)
Lemma buildResultsHTML_fetch eid name st en n (w : World AdminApp.Page) :
  AdminApp.buildResultsHTML eid name st en n w =
  (match fetchCandidates (chain w) eid (upTo n) with
   | Ok cs =>
       Ok {| AdminApp.resultsTitle := name; AdminApp.resultsStart := st;
             AdminApp.resultsEnd := en;
             AdminApp.resultsRows := map adminRow (map candidateData cs);
             AdminApp.resultsTotal := sumVotes cs |}
   | Throw e => Throw e
   end,
   logged w (fetchLog (chain w) eid (upTo n))).
Proof.
  unfold AdminApp.buildResultsHTML, bind.
  rewrite (forEachM_fetch eid _ resultsStep) by (intros [? ?] ? ?; reflexivity).
  destruct (fetchCandidates (chain w) eid (upTo n)); [|done].
  now rewrite foldl_resultsStep.
Qed.

(** A candidate fetched under an id carries that id. *)
Lemma fetchCandidates_ids l eid ids cs :
  fetchCandidates l eid ids = Ok cs -> map Contract.candidateId cs = ids.
Proof.
  revert cs. induction ids as [|i ids IH]; intros cs H; cbn in H.
  - now inversion H.
  - destruct (Contract.getCandidate l eid i) as [c|] eqn:Hc; [|done].
    destruct (fetchCandidates l eid ids) as [cs'|]; [|done].
    inversion H; subst. cbn. f_equal; [|now apply IH].
    unfold Contract.getCandidate in Hc.
    destruct (Contract.findElection l eid) as [e|]; [|done].
    unfold Contract.findCandidate in Hc.
    destruct (find _ (Contract.candidates e)) as [c'|] eqn:Hf; [|done].
    inversion Hc; subst. apply find_some in Hf as [_ Hid].
    now apply bool_decide_eq_true_1 in Hid.
Qed.

(** The admin's live tally is its final-results table stably sorted by votes
    descending; the table itself lists the candidates in the order fetched,
    that is by ascending id. *)
Lemma live_tally_sorts_final_results
    (eid : Z) (name : string) (st en n : Z) (w : World AdminApp.Page)
    cs total w1 v w2 :
  AdminApp.getCandidatesData eid n w = (Ok (cs, total), w1) ->
  AdminApp.buildResultsHTML eid name st en n w = (Ok v, w2) ->
  map AdminApp.resId (AdminApp.resultsRows v) = upTo n /\
  map adminRow cs = jsSort byRowVotesDescending (AdminApp.resultsRows v).
Proof.
  rewrite getCandidatesData_tallyOf, buildResultsHTML_fetch. unfold tallyOf.
  destruct (fetchCandidates (chain w) eid (upTo n)) as [fetched|e] eqn:Hf;
    [|done].
  intros [= <- <- <-] [= <- <-]. cbn. split.
  - rewrite !map_map. cbn. now apply fetchCandidates_ids in Hf.
  - now apply jsSort_map.
Qed.

(** C2, amended: on every ledger the admin's live-tally data builder and
    its final-results builder issue the same reads and fail or succeed
    together, and on success they carry the same candidates with the same
    per-candidate vote counts and the same total; that they present them in
    the same order is not part of it. *)
Theorem live_tally_and_final_results_same_counts
    (eid : Z) (name : string) (st en n : Z) (w : World AdminApp.Page) :
  match AdminApp.getCandidatesData eid n w,
        AdminApp.buildResultsHTML eid name st en n w with
  | (Ok (cs, total), w1), (Ok v, w2) =>
      w1 = w2 /\
      total = AdminApp.resultsTotal v /\
      map adminRow cs ≡ₚ AdminApp.resultsRows v
  | (Throw e1, w1), (Throw e2, w2) => e1 = e2 /\ w1 = w2
  | _, _ => False
  end.
Proof.
  rewrite getCandidatesData_tallyOf, buildResultsHTML_fetch. unfold tallyOf.
  destruct (fetchCandidates (chain w) eid (upTo n)) as [cs|e]; [|done].
  cbn. split; [done|]. split; [done|].
  now rewrite (jsSort_perm byVotesDescending).
Qed.

(** C2 as stated fails: with candidate 1 at 0 votes and candidate 2 at 1
    vote the live tally presents 2 before 1 and the final results 1 before
    2. *)
Lemma live_tally_and_final_results_differ_in_order :
  exists cs total w1 v w2,
    AdminApp.getCandidatesData 1 2 (adminWorld boardLedger)
      = (Ok (cs, total), w1) /\
    AdminApp.buildResultsHTML 1 "Board Election" 60 3660 2
      (adminWorld boardLedger) = (Ok v, w2) /\
    map cdId cs = [2; 1] /\
    map AdminApp.resId (AdminApp.resultsRows v) = [1; 2] /\
    map cdId cs <> map AdminApp.resId (AdminApp.resultsRows v).
Proof.
  eexists _, _, _, _, _. split; [reflexivity|]. split; [reflexivity|].
  split; [reflexivity|]. split; [reflexivity|]. discriminate.
Qed.

(** Two runs of the tally computation on worlds with the same ledger read
    the same thing. *)
Lemma getCandidatesData_same_ledger eid n (w1 w2 : World AdminApp.Page) :
  chain w1 = chain w2 ->
  (AdminApp.getCandidatesData eid n w1).1
    = (AdminApp.getCandidatesData eid n w2).1.
Proof.
  intros Hchain. rewrite !getCandidatesData_tallyOf. cbn [fst].
  now rewrite Hchain.
Qed.

(** C8: the tally is deterministic and idempotent: any two runs of
    [getCandidatesData] on the same store state return the same ranked
    candidates, the same per-candidate counts and the same total, whatever
    else differs between the two worlds; a run changes neither the ledger nor
    the page, so a second run right after the first returns what the first
    returned. *)
Theorem tally_idempotent (eid n : Z) (w w2 : World AdminApp.Page) :
  chain w2 = chain w ->
  (AdminApp.getCandidatesData eid n w2).1
    = (AdminApp.getCandidatesData eid n w).1 /\
  chain (AdminApp.getCandidatesData eid n w).2 = chain w /\
  page (AdminApp.getCandidatesData eid n w).2 = page w /\
  (AdminApp.getCandidatesData eid n (AdminApp.getCandidatesData eid n w).2).1
    = (AdminApp.getCandidatesData eid n w).1.
Proof.
  intros Hchain.
  assert (Hkept : chain (AdminApp.getCandidatesData eid n w).2 = chain w)
    by now rewrite getCandidatesData_tallyOf.
  split; [now apply getCandidatesData_same_ledger|].
  split; [exact Hkept|]. split.
  - now rewrite getCandidatesData_tallyOf.
  - now apply getCandidatesData_same_ledger.
Qed.

(** The theorem on two worlds over the board ledger that differ in their
    call logs. *)
Lemma tally_idempotent_witness :
  chain (logged (adminWorld boardLedger) [CallGetElection 1])
    = chain (adminWorld boardLedger) /\
  (AdminApp.getCandidatesData 1 2
     (logged (adminWorld boardLedger) [CallGetElection 1])).1
    = Ok ([{| cdId := 2; cdName := "Bob"; cdParty := "Blue"; cdVotes := 1 |};
           {| cdId := 1; cdName := "Alice"; cdParty := "Red"; cdVotes := 0 |}],
          1) /\
  (AdminApp.getCandidatesData 1 2
     (AdminApp.getCandidatesData 1 2 (adminWorld boardLedger)).2).1
    = (AdminApp.getCandidatesData 1 2 (adminWorld boardLedger)).1.
Proof.
  split; [reflexivity|].
  destruct (tally_idempotent 1 2 (adminWorld boardLedger)
              (logged (adminWorld boardLedger) [CallGetElection 1]) eq_refl)
    as (Hsame & _ & _ & Hagain).
  split; [|exact Hagain]. rewrite Hsame. reflexivity.
Defined.

(** C9: for an election with no candidate the live-tally path reports that
    no candidates were found, hides the cards and issues no read beyond
    [getElection]; and the candidate-data computation for a count of 0
    returns the empty list and a total of 0 without touching anything. *)
Theorem no_candidates_no_tally
    (id : Z) (info : Contract.ElectionInfo) (w : World AdminApp.Page) :
  Contract.getElection (chain w) id = Ok info ->
  Contract.infoCandidateCount info = 0 ->
  AdminApp.updateLiveTally id w =
    (Ok tt,
     mkWorld (chain w) (calls w ++ [CallGetElection id])
       (AdminApp.withTally
          (mkElement
             (Some (AdminApp.Literal "No candidates found for this election"))
             true)
          (mkElement (content (AdminApp.tallyCards (page w))) false)
          (page w))) /\
  forall (eid : Z) (w0 : World AdminApp.Page),
    AdminApp.getCandidatesData eid 0 w0 = (Ok ([], 0), w0).
Proof.
  intros Hinfo Hcount. split.
  - unfold AdminApp.updateLiveTally, tryCatch, bind, getElection, viewCall.
    rewrite Hinfo, Hcount. reflexivity.
  - intros eid w0. rewrite getCandidatesData_tallyOf. cbn.
    now rewrite logged_nil.
Qed.

(** The theorem on a ledger whose election has no candidate. *)
Lemma no_candidates_no_tally_witness :
  Contract.getElection emptyBallotLedger 1 =
    Ok {| Contract.infoId := 1; Contract.infoName := "Empty";
          Contract.infoStartTime := 60; Contract.infoEndTime := 3660;
          Contract.infoCandidateCount := 0 |} /\
  AdminApp.updateLiveTally 1 (adminWorld emptyBallotLedger) =
    (Ok tt,
     mkWorld emptyBallotLedger [CallGetElection 1]
       (AdminApp.withTally
          (mkElement
             (Some (AdminApp.Literal "No candidates found for this election"))
             true)
          (mkElement None false) AdminApp.initialPage)) /\
  forall (eid : Z) (w0 : World AdminApp.Page),
    AdminApp.getCandidatesData eid 0 w0 = (Ok ([], 0), w0).
Proof.
  split; [reflexivity|].
  exact (no_candidates_no_tally 1 _ (adminWorld emptyBallotLedger)
           eq_refl eq_refl).
Defined.

(** ** Election status *)

Lemma getElectionStatus_cases startTime endTime now :
  (inWindow startTime endTime now /\
   AdminApp.getElectionStatus startTime endTime now
     = (Active, "status-active")) \/
  (~ inWindow startTime endTime now /\ endTime <= now /\
   AdminApp.getElectionStatus startTime endTime now
     = (Ended, "status-ended")) \/
  (~ inWindow startTime endTime now /\ now < endTime /\
   AdminApp.getElectionStatus startTime endTime now
     = (Upcoming, "status-upcoming")).
Proof.
  unfold AdminApp.getElectionStatus, inWindow.
  destruct (Z.leb_spec startTime now), (Z.ltb_spec now endTime); cbn;
    destruct (Z.leb_spec endTime now); first [lia | intuition lia].
Qed.

(** The row the voter's list builds for an election, by the three cases of
    the window test. *)
Lemma electionRow_cases info now (w : World VoterApp.Page) :
  let id := Contract.infoId info in
  let st := Contract.infoStartTime info in
  let en := Contract.infoEndTime info in
  let row s c a :=
    {| VoterApp.rowId := id; VoterApp.rowName := Contract.infoName info;
       VoterApp.rowStart := st; VoterApp.rowEnd := en;
       VoterApp.rowStatus := s; VoterApp.rowStatusClass := c;
       VoterApp.rowAction := a |} in
  (inWindow st en now /\
   VoterApp.electionRow info now w =
     (Ok (row Active "status-active"
            (if Contract.hasVoted (chain w) id (VoterApp.account (page w))
             then VoterApp.AlreadyVotedDisabled else VoterApp.VoteNow id)),
      logged w [CallHasVoted id (VoterApp.account (page w))])) \/
  (~ inWindow st en now /\ en <= now /\
   VoterApp.electionRow info now w =
     (Ok (row Ended "status-ended" (VoterApp.ViewResults id)), w)) \/
  (~ inWindow st en now /\ now < en /\
   VoterApp.electionRow info now w =
     (Ok (row Upcoming "status-upcoming" VoterApp.NotStartedYet), w)).
Proof.
  cbn zeta. unfold VoterApp.electionRow, inWindow.
  destruct (Z.leb_spec (Contract.infoStartTime info) now),
           (Z.ltb_spec now (Contract.infoEndTime info)); cbn [andb].
  1: { left. split; [lia|]. unfold bind, getPage, hasVoted, viewCall.
       cbn [chain page logCall].
       now destruct (Contract.hasVoted (chain w) _ _). }
  all: destruct (Z.leb_spec (Contract.infoEndTime info) now);
    first [ lia
          | right; left; split; [lia|]; split; [lia|]; reflexivity
          | right; right; split; [lia|]; split; [lia|]; reflexivity ].
Qed.

(** C4: the status is a function of [now] and the half-open window
    [[startTime, endTime)] alone: Active iff [now >= startTime] and
    [now < endTime], Ended iff not Active and [now >= endTime], Upcoming
    otherwise, so exactly one of the three holds; the admin's
    [getElectionStatus] and the voter's list compute the same status. *)
Theorem electionStatus_window (startTime endTime now : Z) :
  ((AdminApp.getElectionStatus startTime endTime now).1 = Active <->
   startTime <= now /\ now < endTime) /\
  ((AdminApp.getElectionStatus startTime endTime now).1 = Ended <->
   ~ (startTime <= now /\ now < endTime) /\ endTime <= now) /\
  ((AdminApp.getElectionStatus startTime endTime now).1 = Upcoming <->
   ~ (startTime <= now /\ now < endTime) /\ ~ endTime <= now) /\
  forall (id : Z) (name : string) (count : Z) (w : World VoterApp.Page),
    exists row w',
      VoterApp.electionRow
        {| Contract.infoId := id; Contract.infoName := name;
           Contract.infoStartTime := startTime;
           Contract.infoEndTime := endTime;
           Contract.infoCandidateCount := count |} now w = (Ok row, w') /\
      VoterApp.rowStatus row =
        (AdminApp.getElectionStatus startTime endTime now).1.
Proof.
  pose proof (getElectionStatus_cases startTime endTime now) as Hadmin.
  unfold inWindow in Hadmin.
  split_and!.
  1-3: destruct Hadmin as [[? ->]|[(? & ? & ->)|(? & ? & ->)]]; cbn;
       split; intros; first [done | lia | intuition lia].
  intros id name count w.
  destruct (electionRow_cases
              {| Contract.infoId := id; Contract.infoName := name;
                 Contract.infoStartTime := startTime;
                 Contract.infoEndTime := endTime;
                 Contract.infoCandidateCount := count |} now w)
    as [[Hin ->]|[(Hout & Hle & ->)|(Hout & Hlt & ->)]];
    unfold inWindow in *; cbn in *; eexists _, _; (split; [reflexivity|]);
    destruct Hadmin as [[? ->]|[(? & ? & ->)|(? & ? & ->)]];
    cbn; first [reflexivity | lia | tauto].
Qed.

(** ** The voter's list of elections *)




















(** The same list for the voter whose vote is recorded. *)
Example already_voted_button :
  VoterApp.activeElections
    (page (VoterApp.loadActiveElections 100 (voterWorld boardLedger "0xA")).2)
  = VoterApp.ElectionsTable
      [{| VoterApp.rowId := 1; VoterApp.rowName := "Board Election";
          VoterApp.rowStart := 60; VoterApp.rowEnd := 3660;
          VoterApp.rowStatus := Active;
          VoterApp.rowStatusClass := "status-active";
          VoterApp.rowAction := VoterApp.AlreadyVotedDisabled |}].
Proof. reflexivity. Qed.

(** An election whose name carries a button of class [btn-vote], listed
    after it ended: the row the template builds has the View Results
    control, and what the page holds is left to the browser's reading of
    the name. *)
Example markup_in_a_name :
  plainText (Contract.electionName markupElection) = false /\
  VoterApp.activeElections
    (page (VoterApp.loadActiveElections 5000
             (voterWorld markupLedger "0xB")).2)
  = VoterApp.ElectionsMarkup
      [{| VoterApp.rowId := 1;
          VoterApp.rowName := Contract.electionName markupElection;
          VoterApp.rowStart := 60; VoterApp.rowEnd := 3660;
          VoterApp.rowStatus := Ended;
          VoterApp.rowStatusClass := "status-ended";
          VoterApp.rowAction := VoterApp.ViewResults 1 |}].
Proof. split; reflexivity. Qed.

(** A start time of 2^53 makes [toNumber()] throw: the list shows the
    error text. *)
Example unsafe_number_in_the_list :
  VoterApp.activeElections
    (page (VoterApp.loadActiveElections 100
             (voterWorld farFutureLedger "0xB")).2)
  = VoterApp.LoadError UnsafeNumber.
Proof. reflexivity. Qed.

(** ** Percentages *)








(** [toFixed] on exact ties and just below one: 0.5 and 2.5 round up, and
    201 / 200, the double next to 1.005, prints as 1.00. *)
Example toFixed_rounding :
  toFixed 0.5%float 0 = Decimal false 1 0 /\
  toFixed 2.5%float 0 = Decimal false 3 0 /\
  toFixed (-2.5)%float 0 = Decimal true 3 0 /\
  toFixed (PrimFloat.div (numberOfZ 201) (numberOfZ 200)) 2
    = Decimal false 100 2 /\
  toFixed (PrimFloat.div (numberOfZ 0) (numberOfZ 0)) 1
    = NotFinite PrimFloat.nan.
Proof. repeat split; vm_compute; reflexivity. Qed.

(** The texts the two renderers print for one vote out of three, two out of
    three, the tie 12.25 and an election without votes. *)
Example percentage_texts :
  percentageOf 1 1 3 = PercentFixed (Decimal false 333 1) /\
  percentageOf 2 2 3 = PercentFixed (Decimal false 6667 2) /\
  percentageOf 1 49 400 = PercentFixed (Decimal false 123 1) /\
  percentageOf 2 1 1 = PercentFixed (Decimal false 10000 2) /\
  percentageOf 1 0 0 = PercentZero.
Proof. repeat split; vm_compute; reflexivity. Qed.

(** ** Creating an election *)

Lemma collect_loop p ids acc :
  foldl
    (fun candidates i =>
       match AdminApp.candidateRows (AdminApp.form p) !! i with
       | Some (name, party) =>
           if truthy name && truthy party
           then candidates ++
                [{| AdminApp.entryName := name; AdminApp.entryParty := party |}]
           else candidates
       | None => candidates
       end)
    acc ids = acc ++ omap (completeRow p) ids.
Proof.
  revert acc. induction ids as [|i ids IH]; intros acc.
  - cbn. now rewrite app_nil_r.
  - cbn [foldl omap list_omap]. rewrite IH. unfold completeRow at 2.
    destruct (AdminApp.candidateRows (AdminApp.form p) !! i) as [[name party]|];
      [|done].
    destruct (truthy name && truthy party); [|done].
    now rewrite <- app_assoc.
Qed.

(** [collectCandidates] scans the form indices in ascending order and keeps
    the complete rows it meets. *)
Lemma collectCandidates_omap p :
  AdminApp.collectCandidates p =
  omap (completeRow p) (upTo (AdminApp.candidateCounter p)).
Proof. unfold AdminApp.collectCandidates. now rewrite collect_loop. Qed.

Lemma truthy_nonempty s : truthy s = true -> s <> "".
Proof.
  unfold truthy. intros H ->. discriminate.
Qed.

Lemma completeRow_nonempty p i c :
  completeRow p i = Some c ->
  AdminApp.entryName c <> "" /\ AdminApp.entryParty c <> "".
Proof.
  unfold completeRow.
  destruct (AdminApp.candidateRows (AdminApp.form p) !! i) as [[name party]|];
    [|done].
  destruct (truthy name) eqn:Hn, (truthy party) eqn:Hp; cbn; try done.
  intros [= <-]. cbn. auto using truthy_nonempty.
Qed.

(** [validateFormData] answers by its three tests, touching only the status
    line; a rejection leaves one of its three red messages. *)
Lemma validateFormData_result formData now (w : World AdminApp.Page) :
  exists status,
    AdminApp.validateFormData formData now w =
      (Ok (negb (rejects formData now)),
       mkWorld (chain w) (calls w) (AdminApp.withStatus status (page w))) /\
    (rejects formData now = true ->
     exists text, status = Some (AdminApp.Literal text, "red")) /\
    (rejects formData now = false ->
     status = AdminApp.electionStatus (page w)).
Proof.
  unfold AdminApp.validateFormData, rejects.
  destruct (AdminApp.fdStartDate formData <? now);
    [|destruct (AdminApp.fdEndDate formData <=? AdminApp.fdStartDate formData);
      [|destruct (Z.of_nat (length (AdminApp.fdCandidates formData)) <? 2)]];
    cbn.
  1-3: eexists; split; [reflexivity|]; split; [eauto|done].
  exists (AdminApp.electionStatus (page w)). split; [|done].
  unfold ret. now destruct w as [l cs []].
Qed.

(** A request that validation rejects ends the flow at once: no call is
    issued, the ledger is as before, and the page shows the red message and
    the re-enabled button. *)
Lemma createElection_rejected now later (w : World AdminApp.Page) :
  rejects (AdminApp.getFormData (page w)) now = true ->
  exists text,
    AdminApp.createElection now later w =
      (Ok tt,
       mkWorld (chain w) (calls w)
         (AdminApp.withCreateDisabled false
            (AdminApp.withStatus (Some (AdminApp.Literal text, "red"))
               (page w)))).
Proof.
  intros Hrej.
  unfold AdminApp.createElection, bind at 1, AdminApp.setStatus at 1.
  unfold modifyPage at 1, bind at 1, modifyPage at 1, finally, tryCatch.
  unfold bind at 1, getPage. cbn [chain calls page].
  match goal with |- context [AdminApp.getFormData ?p] =>
    change (AdminApp.getFormData p) with (AdminApp.getFormData (page w)) end.
  unfold bind at 1.
  match goal with |- context [AdminApp.validateFormData ?fd now ?w0] =>
    destruct (validateFormData_result fd now w0)
      as (status & -> & Hred & _) end.
  destruct (Hred Hrej) as [text ->]. rewrite Hrej. cbn.
  exists text. reflexivity.
Qed.

(** C7: the list [collectCandidates] hands to the creation flow holds only
    entries whose name and party are both non-empty, and when it has fewer
    than 2 entries [createElection] is rejected before any contract call:
    no election and no candidate is created, and the page shows a red
    message. *)
Theorem batch_precondition (now later : Z) (w : World AdminApp.Page) :
  Forall (fun c => AdminApp.entryName c <> "" /\ AdminApp.entryParty c <> "")
    (AdminApp.collectCandidates (page w)) /\
  ((length (AdminApp.collectCandidates (page w)) < 2)%nat ->
   (AdminApp.createElection now later w).1 = Ok tt /\
   chain (AdminApp.createElection now later w).2 = chain w /\
   calls (AdminApp.createElection now later w).2 = calls w /\
   exists text,
     AdminApp.electionStatus (page (AdminApp.createElection now later w).2)
       = Some (AdminApp.Literal text, "red")).
Proof.
  split.
  - rewrite collectCandidates_omap. apply Forall_forall. intros c Hc.
    apply list_elem_of_omap in Hc as (i & _ & Hi).
    exact (completeRow_nonempty _ _ _ Hi).
  - intros Hfew.
    destruct (createElection_rejected now later w) as [text ->].
    + unfold rejects. cbn [AdminApp.getFormData AdminApp.fdCandidates].
      rewrite (proj2 (Z.ltb_lt _ 2)) by lia. apply orb_true_r.
    + cbn. eauto.
Qed.

(** The theorem on a form with a single complete row. *)
Lemma batch_precondition_witness :
  AdminApp.collectCandidates loneCandidatePage =
    [{| AdminApp.entryName := "Alice"; AdminApp.entryParty := "Red" |}] /\
  Forall (fun c => AdminApp.entryName c <> "" /\ AdminApp.entryParty c <> "")
    (AdminApp.collectCandidates loneCandidatePage) /\
  (AdminApp.createElection 1000 1000
     (mkWorld (Contract.emptyLedger 900) [] loneCandidatePage)).1 = Ok tt /\
  chain (AdminApp.createElection 1000 1000
           (mkWorld (Contract.emptyLedger 900) [] loneCandidatePage)).2
    = Contract.emptyLedger 900 /\
  calls (AdminApp.createElection 1000 1000
           (mkWorld (Contract.emptyLedger 900) [] loneCandidatePage)).2 = [] /\
  exists text,
    AdminApp.electionStatus
      (page (AdminApp.createElection 1000 1000
               (mkWorld (Contract.emptyLedger 900) [] loneCandidatePage)).2)
      = Some (AdminApp.Literal text, "red").
Proof.
  split; [reflexivity|].
  destruct (batch_precondition 1000 1000
              (mkWorld (Contract.emptyLedger 900) [] loneCandidatePage))
    as [Hall Hrej].
  split; [exact Hall|]. apply Hrej. vm_compute. lia.
Defined.

(** What the flow does with the sample form (two complete rows) when the
    contract accepts the request, and which message each of the three
    rejections leaves. *)
Example createElection_runs :
  calls (AdminApp.createElection 1000 1000 (formWorld 900 2000 5600)).2 =
    [CallCreateElection "Board Election" 2000 5600;
     CallAddCandidate 1 "Alice" "Red"; CallAddCandidate 1 "Bob" "Blue";
     CallGetElectionCount; CallGetElection 1] /\
  Contract.getCandidate
    (chain (AdminApp.createElection 1000 1000 (formWorld 900 2000 5600)).2)
    1 2 = Ok (newCandidate 2 {| AdminApp.entryName := "Bob";
                                 AdminApp.entryParty := "Blue" |}) /\
  AdminApp.electionStatus
    (page (AdminApp.createElection 1000 1000 (formWorld 900 999 5600)).2)
    = Some (AdminApp.Literal "Start date must be in the future", "red") /\
  AdminApp.electionStatus
    (page (AdminApp.createElection 1000 1000 (formWorld 900 2000 2000)).2)
    = Some (AdminApp.Literal "End date must be after start date", "red") /\
  AdminApp.electionStatus
    (page (AdminApp.createElection 1000 1000
             (mkWorld (Contract.emptyLedger 900) [] loneCandidatePage)).2)
    = Some (AdminApp.Literal
              "Please add at least two candidates for the election", "red").
Proof. repeat split; vm_compute; reflexivity. Qed.

(** C3, at the boundary: a request whose start time equals the current time
    passes [validateFormData], so the flow goes on to call the contract's
    [createElection]; that call is the one that rejects it, and the page
    ends with the contract's error instead of the validation message. *)
Theorem validateFormData_accepts_start_equal_to_now :
  (AdminApp.validateFormData
     (AdminApp.getFormData (page (formWorld 1000 1000 4600))) 1000
     (formWorld 1000 1000 4600)).1 = Ok true /\
  calls (AdminApp.createElection 1000 1000 (formWorld 1000 1000 4600)).2 =
    [CallCreateElection "Board Election" 1000 4600] /\
  AdminApp.electionStatus
    (page (AdminApp.createElection 1000 1000 (formWorld 1000 1000 4600)).2)
    = Some (AdminApp.ErrorMessage PastStart, "red").
Proof. repeat split; vm_compute; reflexivity. Qed.

(** The parts of C3 the validation does enforce: a start time before the
    current time and an end time not after the start time are both rejected
    without any contract call. *)
Lemma validateFormData_rejects_window now later (w : World AdminApp.Page) :
  AdminApp.formStart (AdminApp.form (page w)) < now \/
  AdminApp.formEnd (AdminApp.form (page w))
    <= AdminApp.formStart (AdminApp.form (page w)) ->
  chain (AdminApp.createElection now later w).2 = chain w /\
  calls (AdminApp.createElection now later w).2 = calls w.
Proof.
  intros Hbad.
  destruct (createElection_rejected now later w) as [text ->]; [|done].
  unfold rejects. cbn [AdminApp.getFormData AdminApp.fdStartDate
                         AdminApp.fdEndDate].
  destruct Hbad as [H|H].
  - now rewrite (proj2 (Z.ltb_lt _ _) H).
  - rewrite (proj2 (Z.leb_le _ _) H). now rewrite orb_true_r.
Qed.

(** ** Adding the candidates *)

Lemma find_updateElection eid f es :
  (forall e, Contract.electionId (f e) = Contract.electionId e) ->
  find (fun e => bool_decide (Contract.electionId e = eid))
       (Contract.updateElection eid f es) =
  f <$> find (fun e => bool_decide (Contract.electionId e = eid)) es.
Proof.
  intros Hid. induction es as [|e es IH]; [done|]. cbn.
  destruct (bool_decide (Contract.electionId e = eid)) eqn:He.
  - now rewrite Hid, He.
  - now rewrite He.
Qed.

(** A successful [addCandidate] appends the candidate under the next id and
    leaves the clock alone. *)
Lemma addCandidate_ok l eid e c :
  Contract.findElection l eid = Some e ->
  Contract.blockTime l < Contract.startTime e ->
  exists l',
    Contract.addCandidate l eid (AdminApp.entryName c) (AdminApp.entryParty c)
      = Ok (Contract.candidateCount e + 1, l') /\
    Contract.findElection l' eid =
      Some (withCandidates e
              (Contract.candidates e ++
               [newCandidate (Contract.candidateCount e + 1) c])) /\
    Contract.blockTime l' = Contract.blockTime l.
Proof.
  intros He Hopen. unfold Contract.addCandidate. rewrite He.
  rewrite bool_decide_eq_false_2 by lia.
  eexists. split; [reflexivity|]. split; [|reflexivity].
  unfold Contract.findElection in *. cbn [Contract.elections].
  rewrite find_updateElection by done. now rewrite He.
Qed.

Lemma newCandidates_ids base cs :
  map Contract.candidateId (newCandidates base cs) =
  seqZ (base + 1) (Z.of_nat (length cs)).
Proof.
  revert base. induction cs as [|c cs IH]; intros base; [done|].
  cbn [newCandidates map length]. rewrite IH, (seqZ_cons (base + 1)) by lia.
  cbn. do 2 f_equal; lia.
Qed.

Lemma newCandidates_lookup base cs k c :
  cs !! k = Some c ->
  newCandidates base cs !! k = Some (newCandidate (base + Z.of_nat k + 1) c).
Proof.
  revert base k. induction cs as [|c' cs IH]; intros base k Hk; [done|].
  destruct k as [|k]; cbn [newCandidates lookup list_lookup] in *.
  - inversion Hk; subst. do 2 f_equal. lia.
  - etrans; [exact (IH (base + 1) k Hk)|]. do 2 f_equal. lia.
Qed.

(** The loop of [addCandidatesToElection]: every entry is submitted, in
    list order, to the ledger the previous submission left. *)
Lemma addCandidates_loop eid n :
  forall (ics : list (Z * AdminApp.CandidateEntry))
         (w : World AdminApp.Page) e,
    Contract.findElection (chain w) eid = Some e ->
    Contract.blockTime (chain w) < Contract.startTime e ->
    exists w',
      forEachM
        (fun _ '(i, candidate) =>
           AdminApp.setStatus
             (AdminApp.AddingCandidate (i + 1) n (AdminApp.entryName candidate))
             AdminApp.accent;;
           sendAddCandidate eid (AdminApp.entryName candidate)
             (AdminApp.entryParty candidate);;
           ret tt)
        ics tt w = (Ok tt, w') /\
      Contract.findElection (chain w') eid =
        Some (withCandidates e
                (Contract.candidates e ++
                 newCandidates (Contract.candidateCount e) ics.*2)) /\
      calls w' = calls w ++ map (addCall eid) ics.*2.
Proof.
  induction ics as [|[i c] ics IH]; intros w e He Hopen.
  - exists w. cbn. rewrite !app_nil_r. split; [done|]. split; [|done].
    rewrite He. now destruct e.
  - destruct (addCandidate_ok (chain w) eid e c He Hopen)
      as (l' & Hadd & He' & Hclock).
    set (w1 := mkWorld l' (calls w ++ [addCall eid c])
                 (AdminApp.withStatus
                    (Some (AdminApp.AddingCandidate (i + 1) n
                             (AdminApp.entryName c), AdminApp.accent))
                    (page w))).
    destruct (IH w1 _ He') as (w' & Hrun & Hfind & Hcalls).
    { cbn. lia. }
    exists w'. split; [|split].
    + cbn [forEachM]. unfold bind at 1.
      unfold bind at 1, AdminApp.setStatus at 1, modifyPage at 1.
      unfold bind at 1, sendAddCandidate at 1, sendCall at 1.
      cbn [chain calls page]. rewrite Hadd. exact Hrun.
    + rewrite Hfind. cbn [withCandidates Contract.candidates fmap list_fmap
                            newCandidates].
      unfold withCandidates. cbn. f_equal. f_equal.
      rewrite <- app_assoc. cbn. do 3 f_equal.
      all: unfold Contract.candidateCount; cbn; rewrite length_app; cbn; lia.
    + rewrite Hcalls. cbn. now rewrite <- app_assoc.
Qed.

(** C10: [collectCandidates] keeps the complete rows in ascending form-index
    order, and [addCandidatesToElection] submits the entries one after the
    other in list order, each to the ledger the previous one left; on a
    newly created election that is still open for candidates every call
    succeeds and the k-th entry becomes the candidate with id k. *)
Theorem candidates_added_in_list_order
    (p : AdminApp.Page) (eid : Z) (e : Contract.Election)
    (cs : list AdminApp.CandidateEntry) (w : World AdminApp.Page) :
  AdminApp.collectCandidates p =
    omap (completeRow p) (upTo (AdminApp.candidateCounter p)) /\
  (Contract.findElection (chain w) eid = Some e ->
   Contract.candidates e = [] ->
   Contract.blockTime (chain w) < Contract.startTime e ->
   exists w',
     AdminApp.addCandidatesToElection eid cs w = (Ok tt, w') /\
     calls w' = calls w ++ map (addCall eid) cs /\
     Contract.findElection (chain w') eid =
       Some (withCandidates e (newCandidates 0 cs)) /\
     forall (k : nat) (c : AdminApp.CandidateEntry),
       cs !! k = Some c ->
       Contract.getCandidate (chain w') eid (Z.of_nat k + 1) =
         Ok (newCandidate (Z.of_nat k + 1) c)).
Proof.
  split; [apply collectCandidates_omap|].
  intros He Hnew Hopen.
  destruct (addCandidates_loop eid (Z.of_nat (length cs))
              (zip (seqZ 0 (Z.of_nat (length cs))) cs) w e He Hopen)
    as (w' & Hrun & Hfind & Hcalls).
  rewrite snd_zip in Hfind, Hcalls by (rewrite length_seqZ; lia).
  unfold Contract.candidateCount in Hfind. rewrite Hnew in Hfind.
  cbn in Hfind.
  exists w'. split_and!; [exact Hrun|exact Hcalls|exact Hfind|].
  intros k c Hk. unfold Contract.getCandidate, Contract.findCandidate.
  rewrite Hfind. cbn [withCandidates Contract.candidates].
  pose proof (newCandidates_lookup 0 cs k c Hk) as Hlook.
  replace (0 + Z.of_nat k + 1) with (Z.of_nat k + 1) in Hlook by lia.
  change (Z.of_nat k + 1)
    with (Contract.candidateId (newCandidate (Z.of_nat k + 1) c)) at 1.
  rewrite find_candidate_by_id; [reflexivity| |].
  - rewrite newCandidates_ids. apply NoDup_seqZ.
  - eapply list_elem_of_lookup_2, Hlook.
Qed.

(** The theorem on the sample form and a newly created election. *)
Lemma candidates_added_in_list_order_witness :
  Contract.findElection openBallotLedger 1 = Some openBallotElection /\
  Contract.candidates openBallotElection = [] /\
  Contract.blockTime openBallotLedger
    < Contract.startTime openBallotElection /\
  AdminApp.collectCandidates (samplePage 2000 5600) =
    [{| AdminApp.entryName := "Alice"; AdminApp.entryParty := "Red" |};
     {| AdminApp.entryName := "Bob"; AdminApp.entryParty := "Blue" |}] /\
  exists w',
    AdminApp.addCandidatesToElection 1
      (AdminApp.collectCandidates (samplePage 2000 5600))
      (mkWorld openBallotLedger [] (samplePage 2000 5600)) = (Ok tt, w') /\
    calls w' = [CallAddCandidate 1 "Alice" "Red";
                CallAddCandidate 1 "Bob" "Blue"] /\
    Contract.getCandidate (chain w') 1 2 =
      Ok {| Contract.candidateId := 2; Contract.candidateName := "Bob";
            Contract.candidateParty := "Blue"; Contract.voteCount := 0 |}.
Proof.
  split; [reflexivity|]. split; [reflexivity|]. split; [reflexivity|].
  split; [reflexivity|].
  destruct (candidates_added_in_list_order (samplePage 2000 5600) 1
              openBallotElection
              (AdminApp.collectCandidates (samplePage 2000 5600))
              (mkWorld openBallotLedger [] (samplePage 2000 5600)))
    as [_ Hadd].
  destruct (Hadd eq_refl eq_refl eq_refl) as (w' & Hrun & Hcalls & _ & Hget).
  exists w'. split; [exact Hrun|]. split; [exact Hcalls|].
  exact (Hget 1%nat _ eq_refl).
Defined.

(** ** What a computation keeps *)

Lemma sameLedger_refl {U} (w : World U) : sameLedger w w.
Proof. split; [done|]. exists []. now rewrite app_nil_r. Qed.

Lemma sameLedger_trans {U} (w1 w2 w3 : World U) :
  sameLedger w1 w2 -> sameLedger w2 w3 -> sameLedger w1 w3.
Proof.
  intros [Hc1 (n1 & Hn1 & Hv1)] [Hc2 (n2 & Hn2 & Hv2)]. split; [congruence|].
  exists (n1 ++ n2). rewrite Hn2, Hn1, app_assoc. split; [done|].
  now apply Forall_app.
Qed.

#[global] Instance sameLedger_preorder {U} : PreOrder (@sameLedger U).
Proof. split; [exact sameLedger_refl | exact sameLedger_trans]. Qed.

#[global] Instance refreshed_preorder : PreOrder refreshed.
Proof.
  split.
  - intros w. split; [reflexivity|done].
  - intros w1 w2 w3 [Hl1 Hf1] [Hl2 Hf2].
    split; [now transitivity w2 | congruence].
Qed.

#[global] Instance tallyRefreshed_preorder : PreOrder tallyRefreshed.
Proof.
  split.
  - intros w. split; [reflexivity|done].
  - intros w1 w2 w3 [Hr1 Ha1] [Hr2 Ha2].
    split; [now transitivity w2 | congruence].
Qed.

Section Keeps.
Context {U : Type} (R : World U -> World U -> Prop) `{!PreOrder R}.

Lemma keeps_ret {A} (a : A) : keeps R (ret a).
Proof. intros w. reflexivity. Qed.

Lemma keeps_bind {A B} (c : M U A) (k : A -> M U B) :
  keeps R c -> (forall a, keeps R (k a)) -> keeps R (bind c k).
Proof.
  intros Hc Hk w. unfold bind. specialize (Hc w).
  destruct (c w) as [[a|e] w1]; cbn in *; [|done].
  transitivity w1; [done|apply Hk].
Qed.

Lemma keeps_tryCatch {A} (body : M U A) (handler : Error -> M U A) :
  keeps R body -> (forall e, keeps R (handler e)) ->
  keeps R (tryCatch body handler).
Proof.
  intros Hb Hh w. unfold tryCatch. specialize (Hb w).
  destruct (body w) as [[a|e] w1]; cbn in *; [done|].
  transitivity w1; [done|apply Hh].
Qed.

Lemma keeps_forEachM {S X} (body : S -> X -> M U S) xs :
  (forall acc x, keeps R (body acc x)) ->
  forall acc, keeps R (forEachM body xs acc).
Proof.
  intros Hbody. induction xs as [|x xs IH]; intros acc; cbn [forEachM].
  - apply keeps_ret.
  - apply keeps_bind; [apply Hbody|exact IH].
Qed.

Lemma keeps_getPage : keeps R getPage.
Proof. intros w. reflexivity. Qed.

Lemma keeps_toNumber z : keeps R (toNumber z).
Proof. intros w. unfold toNumber. destruct (_ <? _); reflexivity. Qed.
End Keeps.

Lemma neverThrows_tryCatch {U A} (body : M U A) (handler : Error -> M U A) :
  (forall e, neverThrows (handler e)) -> neverThrows (tryCatch body handler).
Proof.
  intros Hh w. unfold tryCatch.
  destruct (body w) as [[a|e] w1]; [now exists a|apply Hh].
Qed.

Lemma neverThrows_modifyPage {U} (f : U -> U) : neverThrows (modifyPage f).
Proof. intros w. now exists tt. Qed.

Lemma neverThrows_bind {U A B} (c : M U A) (k : A -> M U B) :
  neverThrows c -> (forall a, neverThrows (k a)) -> neverThrows (bind c k).
Proof.
  intros Hc Hk w. unfold bind. destruct (Hc w) as [a Ha].
  destruct (c w) as [[a'|e] w1]; cbn in Ha; [|done]. apply Hk.
Qed.

Lemma sameLedger_viewCall {U A} (c : Call) (f : Contract.Ledger -> Result A) :
  isViewCall c = true -> keeps (@sameLedger U) (viewCall c f).
Proof.
  intros Hview w. split; [done|]. exists [c]. split; [done|].
  now repeat constructor.
Qed.

Lemma sameLedger_modifyPage {U} (f : U -> U) :
  keeps (@sameLedger U) (modifyPage f).
Proof. intros w. split; [done|]. exists []. cbn. now rewrite app_nil_r. Qed.

Lemma refreshed_viewCall {A} (c : Call) (f : Contract.Ledger -> Result A) :
  isViewCall c = true -> keeps refreshed (viewCall c f).
Proof. intros Hview w. split; [now apply sameLedger_viewCall|done]. Qed.

Lemma refreshed_modifyPage (f : AdminApp.Page -> AdminApp.Page) :
  (forall p, formPart (f p) = formPart p) -> keeps refreshed (modifyPage f).
Proof. intros Hf w. split; [apply sameLedger_modifyPage|apply Hf]. Qed.

Lemma tallyRefreshed_viewCall {A} (c : Call) (f : Contract.Ledger -> Result A) :
  isViewCall c = true -> keeps tallyRefreshed (viewCall c f).
Proof. intros Hview w. split; [now apply refreshed_viewCall|done]. Qed.

Lemma tallyRefreshed_modifyPage (f : AdminApp.Page -> AdminApp.Page) :
  (forall p, formPart (f p) = formPart p) ->
  (forall p, AdminApp.activeElections (f p) = AdminApp.activeElections p) ->
  keeps tallyRefreshed (modifyPage f).
Proof. intros Hf Ha w. split; [now apply refreshed_modifyPage|apply Ha]. Qed.

(** The structural steps of a proof that a computation keeps a relation. *)
Ltac keeps_step :=
  first
    [ apply keeps_ret; solve [typeclasses eauto]
    | apply keeps_getPage; solve [typeclasses eauto]
    | apply keeps_toNumber; solve [typeclasses eauto]
    | apply keeps_bind; [typeclasses eauto | | intros ?]
    | apply keeps_tryCatch; [typeclasses eauto | | intros ?]
    | apply keeps_forEachM; [typeclasses eauto | intros ? ?]
    | match goal with
      | |- keeps _ (if ?b then _ else _) => destruct b
      | |- keeps _ (let '(_, _) := ?p in _) => destruct p
      | |- keeps _ (match ?p with (_, _) => _ end) => destruct p
      | |- keeps _ ((let '(_, _) := ?p in _) _) => destruct p; cbv beta
      end ].

(** A proof by the structure of the computation, with [leaf] closing the
    calls, the page writes and the functions already dealt with. *)
Ltac keeps_by leaf := repeat first [ solve [leaf] | keeps_step ].

(** The live tally only reads, and writes nothing but the tally panel. *)
Lemma updateLiveTally_tallyRefreshed id :
  keeps tallyRefreshed (AdminApp.updateLiveTally id).
Proof.
  unfold AdminApp.updateLiveTally, AdminApp.getCandidatesData,
    AdminApp.displayTallyResults, AdminApp.showTallyMessage,
    getElection, getCandidate.
  keeps_by ltac:(first [ now apply tallyRefreshed_viewCall
                       | now apply tallyRefreshed_modifyPage ]).
Qed.

Lemma updateLiveTally_neverThrows id :
  neverThrows (AdminApp.updateLiveTally id).
Proof.
  apply neverThrows_tryCatch. intros e. apply neverThrows_modifyPage.
Qed.

Lemma keeps_weaken {U A} (R R' : World U -> World U -> Prop) (c : M U A) :
  (forall w w', R w w' -> R' w w') -> keeps R c -> keeps R' c.
Proof. intros Himp Hc w. apply Himp, Hc. Qed.

Lemma updateLiveTally_sameLedger id :
  keeps sameLedger (AdminApp.updateLiveTally id).
Proof.
  apply (keeps_weaken tallyRefreshed); [|apply updateLiveTally_tallyRefreshed].
  now intros w w' [[? _] _].
Qed.

(** ** The admin's elections table *)





(** ** The pages that only read *)

Lemma admin_loadActiveElections_sameLedger now :
  keeps sameLedger (AdminApp.loadActiveElections now).
Proof.
  unfold AdminApp.loadActiveElections, AdminApp.buildElectionsTable,
    AdminApp.handleError, AdminApp.setStatus, AdminApp.showTallyPlaceholder,
    getElectionCount, getElection.
  keeps_by ltac:(first [ now apply sameLedger_viewCall
                       | apply sameLedger_modifyPage
                       | apply updateLiveTally_sameLedger ]).
Qed.

Lemma admin_viewElectionResults_sameLedger id :
  keeps sameLedger (AdminApp.viewElectionResults id).
Proof.
  unfold AdminApp.viewElectionResults, AdminApp.buildResultsHTML,
    AdminApp.handleError, AdminApp.setStatus, getElection, getCandidate.
  keeps_by ltac:(first [ now apply sameLedger_viewCall
                       | apply sameLedger_modifyPage ]).
Qed.

Lemma liveTallyTick_tallyRefreshed now :
  keeps tallyRefreshed (AdminApp.liveTallyTick now).
Proof.
  unfold AdminApp.liveTallyTick, getElectionCount, getElection.
  keeps_by ltac:(first [ now apply tallyRefreshed_viewCall
                       | apply updateLiveTally_tallyRefreshed ]).
Qed.

(** X1: the admin's list of elections, its results page and its live tally
    never change the ledger and issue only reading calls; none of them ever
    throws, a failed read ends in a message on the page; the live tally
    moreover writes nothing but the tally panel. *)
Theorem admin_pages_only_read (now id : Z) (w : World AdminApp.Page) :
  (sameLedger w (AdminApp.loadActiveElections now w).2 /\
   (AdminApp.loadActiveElections now w).1 = Ok tt) /\
  (sameLedger w (AdminApp.viewElectionResults id w).2 /\
   (AdminApp.viewElectionResults id w).1 = Ok tt) /\
  (tallyRefreshed w (AdminApp.updateLiveTally id w).2 /\
   (AdminApp.updateLiveTally id w).1 = Ok tt).
Proof.
  assert (Hunit : forall (c : M AdminApp.Page unit),
             neverThrows c -> (c w).1 = Ok tt).
  { intros c Hc. destruct (Hc w) as [[] ->]. reflexivity. }
  split_and!.
  - apply admin_loadActiveElections_sameLedger.
  - apply Hunit, neverThrows_tryCatch. intros e.
    apply neverThrows_bind; intros; apply neverThrows_modifyPage.
  - apply admin_viewElectionResults_sameLedger.
  - apply Hunit, neverThrows_tryCatch. intros e.
    apply neverThrows_bind; intros; apply neverThrows_modifyPage.
  - apply updateLiveTally_tallyRefreshed.
  - apply Hunit, updateLiveTally_neverThrows.
Qed.

(** A run of the timer's callback over elections none of which is active
    reads them and writes nothing. *)
Lemma tick_loop_idle now ids :
  forall (w : World AdminApp.Page),
    noneActive (chain w) now ->
    page (forEachM
            (fun _ i =>
               let* election := getElection i in
               let startTime := Contract.infoStartTime election in
               let endTime := Contract.infoEndTime election in
               if (startTime <=? now) && (now <? endTime)
               then AdminApp.updateLiveTally i
               else ret tt)
            ids tt w).2 = page w.
Proof.
  induction ids as [|i ids IH]; intros w Hidle; [done|].
  cbn [forEachM]. unfold bind at 1, bind at 1, getElection at 1, viewCall at 1.
  destruct (Contract.getElection (chain w) i) as [info|e] eqn:Hinfo; [|done].
  specialize (Hidle i info Hinfo) as Hout. unfold inWindow in Hout.
  destruct (Z.leb_spec (Contract.infoStartTime info) now),
           (Z.ltb_spec now (Contract.infoEndTime info)); cbn [andb];
    try (exfalso; apply Hout; split; assumption).
  all: unfold ret at 1; rewrite IH; done.
Qed.

(** X2: a run of the callback that [startLiveTallyUpdate] schedules never
    throws, reads only, and writes nothing but the tally panel; when no
    election is inside its window it leaves the whole page as it is (it does
    not bring back the placeholder message that [loadActiveElections] shows
    in that case). *)
Theorem liveTallyTick_refreshes_tally_only (now : Z) (w : World AdminApp.Page) :
  (AdminApp.liveTallyTick now w).1 = Ok tt /\
  tallyRefreshed w (AdminApp.liveTallyTick now w).2 /\
  (noneActive (chain w) now -> page (AdminApp.liveTallyTick now w).2 = page w).
Proof.
  split_and!.
  - assert (Hnt : neverThrows (AdminApp.liveTallyTick now)).
    { apply neverThrows_tryCatch. intros e w'. now exists tt. }
    destruct (Hnt w) as [[] ->]. reflexivity.
  - apply liveTallyTick_tallyRefreshed.
  - intros Hidle. unfold AdminApp.liveTallyTick, tryCatch, bind at 1.
    unfold getElectionCount at 1, viewCall at 1.
    pose proof (tick_loop_idle now
                  (upTo (Contract.getElectionCount (chain w)))
                  (logCall CallGetElectionCount w) Hidle) as Hloop.
    match goal with |- context [forEachM ?b ?xs tt ?w0] =>
      destruct (forEachM b xs tt w0) as [[[]|e] w1] end; exact Hloop.
Qed.

(** The theorem before the board election opens: the page is untouched,
    while [loadActiveElections] shows the placeholder. *)
Lemma liveTallyTick_refreshes_tally_only_witness :
  noneActive freshBoardLedger 10 /\
  page (AdminApp.liveTallyTick 10 (adminWorld freshBoardLedger)).2
    = AdminApp.initialPage /\
  (AdminApp.liveTallyTick 10 (adminWorld freshBoardLedger)).1 = Ok tt.
Proof.
  assert (Hidle : noneActive freshBoardLedger 10).
  { intros i info. unfold Contract.getElection, Contract.findElection. cbn.
    destruct (bool_decide (1 = i)); [|done].
    intros [= <-]. unfold inWindow. cbn. lia. }
  destruct (liveTallyTick_refreshes_tally_only 10 (adminWorld freshBoardLedger))
    as (Hok & _ & Hpage).
  split; [exact Hidle|]. split; [exact (Hpage Hidle)|exact Hok].
Defined.





(** The admin's table for an election whose name carries markup: what the
    page holds is left to the browser's reading of the name. *)
Example markup_in_the_admin_table :
  exists rows,
    AdminApp.activeElections
      (page (AdminApp.loadActiveElections 5000 (adminWorld markupLedger)).2)
    = AdminApp.ElectionsMarkup rows.
Proof. eexists. reflexivity. Qed.

(** ** The creation flow from end to end *)

#[global] Instance disciplineKept_preorder : PreOrder disciplineKept.
Proof.
  split; [now intros w|]. intros w1 w2 w3 H1 H2 H. now apply H2, H1.
Qed.






Lemma createElectionOnBlockchain_throw formData (w : World AdminApp.Page) e :
  Contract.createElection (chain w) (AdminApp.fdElectionName formData)
    (AdminApp.fdStartDate formData) (AdminApp.fdEndDate formData)
    = Throw e ->
  AdminApp.createElectionOnBlockchain formData w =
    (Throw e,
     mkWorld (chain w)
       (calls w ++
        [CallCreateElection (AdminApp.fdElectionName formData)
           (AdminApp.fdStartDate formData) (AdminApp.fdEndDate formData)])
       (AdminApp.withStatus
          (Some (AdminApp.Creating (AdminApp.fdElectionName formData),
                 AdminApp.accent))
          (page w))).
Proof.
  intros Hc.
  unfold AdminApp.createElectionOnBlockchain, bind, AdminApp.setStatus,
    modifyPage, sendCreateElection, sendCall, ret, logCall.
  cbn [chain calls page]. now rewrite Hc.
Qed.

(** The flow up to the validation: the world in which
    [createElectionOnBlockchain] starts when the form is accepted. *)
Lemma createElection_validated now later (w : World AdminApp.Page) :
  rejects (AdminApp.getFormData (page w)) now = false ->
  AdminApp.createElection now later w =
    finally
      (tryCatch
         (let* formData :=
            AdminApp.createElectionOnBlockchain
              (AdminApp.getFormData (page w)) in
          AdminApp.addCandidatesToElection (AdminApp.fdElectionId formData)
            (AdminApp.fdCandidates formData);;
          AdminApp.setStatus
            (AdminApp.Success (AdminApp.fdElectionName formData)
               (Z.of_nat (length (AdminApp.fdCandidates formData)))) "green";;
          AdminApp.resetForm;;
          AdminApp.loadActiveElections later)
         AdminApp.handleError)
      (fun w => mkWorld (chain w) (calls w)
                  (AdminApp.withCreateDisabled false (page w)))
      (mkWorld (chain w) (calls w)
         (AdminApp.withCreateDisabled true
            (AdminApp.withStatus
               (Some (AdminApp.Literal "Processing your request...",
                      AdminApp.accent)) (page w)))).
Proof.
  intros Hok.
  unfold AdminApp.createElection, bind at 1, AdminApp.setStatus at 1.
  unfold modifyPage at 1, bind at 1, modifyPage at 1.
  cbn [chain calls page].
  unfold finally, tryCatch. unfold bind at 1, getPage. cbn [chain calls page].
  match goal with |- context [AdminApp.getFormData ?p] =>
    change (AdminApp.getFormData p) with (AdminApp.getFormData (page w)) end.
  unfold bind at 1.
  match goal with |- context [AdminApp.validateFormData ?fd now ?w0] =>
    destruct (validateFormData_result fd now w0)
      as (status & -> & _ & Hsame) end.
  rewrite (Hsame Hok), Hok. cbn [negb chain calls page].
  reflexivity.
Qed.

(** X4: when the form passes validation but the contract rejects
    [createElection], the flow stops there: that one call was issued and no
    candidate was submitted, the ledger is unchanged, the status line shows
    the contract's error in red, the form keeps its rows and inputs, and the
    create button is enabled again. *)
Theorem createElection_contract_rejects
    (now later : Z) (w : World AdminApp.Page) (e : Error) :
  rejects (AdminApp.getFormData (page w)) now = false ->
  Contract.createElection (chain w)
    (AdminApp.formElectionName (AdminApp.form (page w)))
    (AdminApp.formStart (AdminApp.form (page w)))
    (AdminApp.formEnd (AdminApp.form (page w))) = Throw e ->
  AdminApp.createElection now later w =
    (Ok tt,
     mkWorld (chain w) (calls w ++ [createCall (page w)])
       (AdminApp.withCreateDisabled false
          (AdminApp.withStatus (Some (AdminApp.ErrorMessage e, "red"))
             (page w)))).
Proof.
  intros Hvalid Hthrow. rewrite (createElection_validated now later w Hvalid).
  unfold finally, tryCatch, bind at 1.
  rewrite (createElectionOnBlockchain_throw _ _ e) by exact Hthrow.
  reflexivity.
Qed.

(** The theorem on a form whose start is the current second, on a chain
    whose clock shows the same second. *)
Lemma createElection_contract_rejects_witness :
  rejects (AdminApp.getFormData (page (formWorld 1000 1000 4600))) 1000
    = false /\
  AdminApp.createElection 1000 1000 (formWorld 1000 1000 4600) =
    (Ok tt,
     mkWorld (Contract.emptyLedger 1000)
       [CallCreateElection "Board Election" 1000 4600]
       (AdminApp.withCreateDisabled false
          (AdminApp.withStatus (Some (AdminApp.ErrorMessage PastStart, "red"))
             (samplePage 1000 4600)))).
Proof.
  split; [reflexivity|].
  exact (createElection_contract_rejects 1000 1000 (formWorld 1000 1000 4600)
           PastStart eq_refl eq_refl).
Defined.





(** ** The voter's pages *)

#[global] Instance noVoteSent_preorder : PreOrder noVoteSent.
Proof.
  split.
  - intros w. split; [reflexivity|done].
  - intros w1 w2 w3 (Hl1 & Hv1 & Hs1) (Hl2 & Hv2 & Hs2).
    split; [now transitivity w2|]. split; congruence.
Qed.

Lemma voter_loadActiveElections_sameLedger now :
  keeps sameLedger (VoterApp.loadActiveElections now).
Proof.
  unfold VoterApp.loadActiveElections, VoterApp.electionRow,
    VoterApp.electionNumbers, VoterApp.updateElections, getElectionCount,
    getElection, hasVoted.
  keeps_by ltac:(first [ now apply sameLedger_viewCall
                       | apply sameLedger_modifyPage ]).
Qed.

Lemma voter_viewElectionResults_sameLedger id :
  keeps sameLedger (VoterApp.viewElectionResults id).
Proof.
  unfold VoterApp.viewElectionResults, VoterApp.updateElections,
    getElection, getCandidate.
  keeps_by ltac:(first [ now apply sameLedger_viewCall
                       | apply sameLedger_modifyPage ]).
Qed.

Lemma showVotingBallot_noVoteSent id :
  keeps noVoteSent (VoterApp.showVotingBallot id).
Proof.
  unfold VoterApp.showVotingBallot, getElection, getCandidate.
  keeps_by ltac:(first
    [ intros w; split; [now apply sameLedger_viewCall|done]
    | intros w; split; [apply sameLedger_modifyPage|done] ]).
Qed.

(** X6: the voter's list of elections, results page and ballot never change
    the ledger and issue only reading calls; none of them ever throws, a
    failed read ends in an error text on the page; showing the ballot sends
    no vote. *)
Theorem voter_pages_only_read
    (now id : Z) (w : World VoterApp.Page) (wb : World VoterApp.BallotPage) :
  (sameLedger w (VoterApp.loadActiveElections now w).2 /\
   (VoterApp.loadActiveElections now w).1 = Ok tt) /\
  (sameLedger w (VoterApp.viewElectionResults id w).2 /\
   (VoterApp.viewElectionResults id w).1 = Ok tt) /\
  (noVoteSent wb (VoterApp.showVotingBallot id wb).2 /\
   (VoterApp.showVotingBallot id wb).1 = Ok tt).
Proof.
  assert (Hunit : forall U (c : M U unit) w0,
             neverThrows c -> (c w0).1 = Ok tt).
  { intros U c w0 Hc. destruct (Hc w0) as [[] ->]. reflexivity. }
  split_and!.
  - apply voter_loadActiveElections_sameLedger.
  - apply Hunit. unfold VoterApp.loadActiveElections.
    apply neverThrows_bind; [apply neverThrows_modifyPage|intros _].
    apply neverThrows_tryCatch. intros e. apply neverThrows_modifyPage.
  - apply voter_viewElectionResults_sameLedger.
  - apply Hunit, neverThrows_tryCatch. intros e. apply neverThrows_modifyPage.
  - apply showVotingBallot_noVoteSent.
  - apply Hunit, neverThrows_tryCatch. intros e. apply neverThrows_modifyPage.
Qed.





(** ** Casting a vote *)




(** What [submitVote] does on a page that shows a ballot, by what is
    checked and what the contract answers. *)
Lemma submitVote_cases (w : World VoterApp.BallotPage) b :
  VoterApp.ballotView (page w) = VoterApp.BallotForm b ->
  VoterApp.submitVote w =
  (Ok tt,
   match VoterApp.checkedCandidate (page w) with
   | None =>
       mkWorld (chain w) (calls w)
         (VoterApp.withSubmitDisabled false
            (VoterApp.withVoteStatus VoterApp.PleaseSelect (page w)))
   | Some cid =>
       match Contract.vote (chain w) (VoterApp.ballotElectionId b)
               (VoterApp.voter (page w)) cid with
       | Ok l' =>
           mkWorld l' (calls w)
             (VoterApp.withSubmitDisabled true
                (VoterApp.withVoteStatus VoterApp.Recorded
                   (voteSent (VoterApp.ballotElectionId b) cid (page w))))
       | Throw e =>
           mkWorld (chain w) (calls w)
             (VoterApp.withSubmitDisabled false
                (VoterApp.withVoteStatus (VoterApp.VoteFailed e)
                   (voteSent (VoterApp.ballotElectionId b) cid (page w))))
       end
   end).
Proof.
  intros Hview. unfold VoterApp.submitVote, bind at 1, getPage. rewrite Hview.
  unfold tryCatch, bind, modifyPage, VoterApp.sendVote.
  cbn [chain calls page].
  destruct (VoterApp.checkedCandidate (page w)) as [cid|]; [|reflexivity].
  cbn [chain calls page].
  destruct (Contract.vote (chain w) _ _ cid); reflexivity.
Qed.

(** X8: [submitVote] on a page that shows a ballot always returns normally
    and issues no read.  With no radio button checked it sends nothing, asks
    to select a candidate and enables the button again; a vote the contract
    rejects leaves the ledger as it was, shows the error and enables the
    button again; a vote the contract accepts changes the ledger to what the
    contract returned, shows the success message and leaves the button
    disabled. *)
Theorem submitVote_outcomes (w : World VoterApp.BallotPage) (b : VoterApp.Ballot) :
  VoterApp.ballotView (page w) = VoterApp.BallotForm b ->
  (VoterApp.submitVote w).1 = Ok tt /\
  calls (VoterApp.submitVote w).2 = calls w /\
  (VoterApp.checkedCandidate (page w) = None ->
   chain (VoterApp.submitVote w).2 = chain w /\
   page (VoterApp.submitVote w).2 =
     VoterApp.withSubmitDisabled false
       (VoterApp.withVoteStatus VoterApp.PleaseSelect (page w))) /\
  (forall cid e,
      VoterApp.checkedCandidate (page w) = Some cid ->
      Contract.vote (chain w) (VoterApp.ballotElectionId b)
        (VoterApp.voter (page w)) cid = Throw e ->
      chain (VoterApp.submitVote w).2 = chain w /\
      page (VoterApp.submitVote w).2 =
        VoterApp.withSubmitDisabled false
          (VoterApp.withVoteStatus (VoterApp.VoteFailed e)
             (voteSent (VoterApp.ballotElectionId b) cid (page w)))) /\
  (forall cid l',
      VoterApp.checkedCandidate (page w) = Some cid ->
      Contract.vote (chain w) (VoterApp.ballotElectionId b)
        (VoterApp.voter (page w)) cid = Ok l' ->
      chain (VoterApp.submitVote w).2 = l' /\
      page (VoterApp.submitVote w).2 =
        VoterApp.withSubmitDisabled true
          (VoterApp.withVoteStatus VoterApp.Recorded
             (voteSent (VoterApp.ballotElectionId b) cid (page w)))).
Proof.
  intros Hview. rewrite (submitVote_cases w b Hview). cbn [fst snd].
  split_and!.
  - reflexivity.
  - destruct (VoterApp.checkedCandidate (page w)) as [cid|]; [|reflexivity].
    now destruct (Contract.vote (chain w) _ _ cid).
  - now intros ->.
  - intros cid e -> ->. done.
  - intros cid l' -> ->. done.
Qed.

(** The theorem on the board election, for the voter whose vote is already
    recorded: the second vote is rejected and changes nothing. *)
Lemma submitVote_outcomes_witness :
  VoterApp.ballotView
    (page (userDoes (VoterApp.checkCandidate 1)
             (VoterApp.showVotingBallot 1 (ballotWorld boardLedger "0xA")).2))
    = VoterApp.BallotForm (ballotOf 1
        {| Contract.infoId := 1; Contract.infoName := "Board Election";
           Contract.infoStartTime := 60; Contract.infoEndTime := 3660;
           Contract.infoCandidateCount := 2 |}
        (Contract.candidates boardElection)) /\
  chain (VoterApp.submitVote
           (userDoes (VoterApp.checkCandidate 1)
              (VoterApp.showVotingBallot 1
                 (ballotWorld boardLedger "0xA")).2)).2 = boardLedger /\
  VoterApp.voteStatus
    (page (VoterApp.submitVote
             (userDoes (VoterApp.checkCandidate 1)
                (VoterApp.showVotingBallot 1
                   (ballotWorld boardLedger "0xA")).2)).2)
    = VoterApp.VoteFailed AlreadyVoted.
Proof.
  split; [reflexivity|].
  destruct (submitVote_outcomes
              (userDoes (VoterApp.checkCandidate 1)
                 (VoterApp.showVotingBallot 1
                    (ballotWorld boardLedger "0xA")).2) _ eq_refl)
    as (_ & _ & _ & Hrejected & _).
  destruct (Hrejected 1 AlreadyVoted eq_refl eq_refl) as [Hchain Hpage].
  split; [exact Hchain|]. rewrite Hpage. reflexivity.
Defined.






(** ** The rows of the creation form *)

#[global] Instance numberingKept_preorder : PreOrder numberingKept.
Proof.
  split; [now intros w|]. intros w1 w2 w3 H1 H2 H. now apply H2, H1.
Qed.

Lemma keeps_finally {U A} (R : World U -> World U -> Prop) `{!PreOrder R}
    (body : M U A) (cleanup : World U -> World U) :
  keeps R body -> (forall w, R w (cleanup w)) -> keeps R (finally body cleanup).
Proof.
  intros Hb Hc w. unfold finally. specialize (Hb w).
  destruct (body w) as [r w1]. cbn in *. transitivity w1; [done|apply Hc].
Qed.

Lemma rowsNumbered_reset p :
  rowsNumbered (AdminApp.withForm 1 AdminApp.emptyForm p).
Proof.
  split; [cbn; lia|]. intros i. cbn. intros [x Hx].
  apply lookup_singleton_Some in Hx as [<- _]. lia.
Qed.

(** The calls and the page writes that leave the rows alone. *)
Ltac numbering_leaf :=
  first
    [ intros w H; exact H
    | intros w _; apply rowsNumbered_reset
    | intros w H; unfold sendCreateElection, sendAddCandidate, sendCall;
      match goal with
      | |- context [Contract.createElection ?l ?a ?b ?c] =>
          destruct (Contract.createElection l a b c) as [[? ?]|?]
      | |- context [Contract.addCandidate ?l ?a ?b ?c] =>
          destruct (Contract.addCandidate l a b c) as [[? ?]|?]
      end; exact H ].

Lemma updateLiveTally_numbering id :
  keeps numberingKept (AdminApp.updateLiveTally id).
Proof.
  intros w H. destruct (updateLiveTally_tallyRefreshed id w) as [[_ Hform] _].
  injection Hform as Hc Hf _ _. unfold rowsNumbered. now rewrite Hc, Hf.
Qed.

Lemma liveTallyTick_numbering now :
  keeps numberingKept (AdminApp.liveTallyTick now).
Proof.
  intros w H. destruct (liveTallyTick_tallyRefreshed now w) as [[_ Hform] _].
  injection Hform as Hc Hf _ _. unfold rowsNumbered. now rewrite Hc, Hf.
Qed.

Lemma admin_loadActiveElections_numbering now :
  keeps numberingKept (AdminApp.loadActiveElections now).
Proof.
  unfold AdminApp.loadActiveElections, AdminApp.buildElectionsTable,
    AdminApp.handleError, AdminApp.setStatus, AdminApp.showTallyPlaceholder,
    getElectionCount, getElection.
  keeps_by ltac:(first [ apply updateLiveTally_numbering | numbering_leaf ]).
Qed.

Lemma admin_viewElectionResults_numbering id :
  keeps numberingKept (AdminApp.viewElectionResults id).
Proof.
  unfold AdminApp.viewElectionResults, AdminApp.buildResultsHTML,
    AdminApp.handleError, AdminApp.setStatus, getElection, getCandidate.
  keeps_by numbering_leaf.
Qed.

Lemma createElection_numbering now later :
  keeps numberingKept (AdminApp.createElection now later).
Proof.
  unfold AdminApp.createElection.
  apply keeps_bind; [typeclasses eauto|numbering_leaf|intros _].
  apply keeps_bind; [typeclasses eauto|numbering_leaf|intros _].
  apply keeps_finally; [typeclasses eauto| |numbering_leaf].
  unfold AdminApp.validateFormData, AdminApp.createElectionOnBlockchain,
    AdminApp.addCandidatesToElection, AdminApp.resetForm,
    AdminApp.handleError, AdminApp.setStatus.
  keeps_by ltac:(first [ apply admin_loadActiveElections_numbering
                       | numbering_leaf ]).
Qed.

(** Whatever happens in a session, the rows keep numbers the loop of
    [collectCandidates] visits. *)
Lemma adminSession_numbered w : adminSession w -> rowsNumbered (page w).
Proof.
  induction 1 as [l|w _ IH|i w _ IH|i name party w _ IH
                 |name startDate endDate w _ IH|now later w _ IH
                 |now w _ IH|id w _ IH|id w _ IH|now w _ IH|l w _ IH].
  - split; [cbn; lia|]. intros i [x Hx]. cbn in Hx.
    apply lookup_singleton_Some in Hx as [<- _]. cbn. lia.
  - destruct IH as [Hpos IH]. split; [cbn; lia|]. intros i. cbn. intros Hi.
    destruct (decide (i = AdminApp.candidateCounter (page w) + 1)) as [->|Hne];
      [lia|].
    rewrite lookup_insert_ne in Hi by done. specialize (IH i Hi). lia.
  - destruct IH as [Hpos IH]. split; [exact Hpos|]. intros j. cbn. intros Hj.
    apply IH. destruct Hj as [x Hx].
    apply lookup_delete_Some in Hx as [_ Hx]. now exists x.
  - destruct IH as [Hpos IH]. split; [exact Hpos|]. intros j. cbn. intros Hj.
    apply IH. now apply lookup_alter_is_Some in Hj.
  - exact IH.
  - now apply createElection_numbering.
  - now apply admin_loadActiveElections_numbering.
  - now apply admin_viewElectionResults_numbering.
  - now apply updateLiveTally_numbering.
  - now apply liveTallyTick_numbering.
  - exact IH.
Qed.

(** X11: in every state a session of the admin page can reach (clicks on
    Add and on remove buttons, typing in the rows, in the name and in the
    dates, submitting the form, whether the election is created or not,
    loading the lists, the timer firing), each candidate row that is in the
    page with both inputs filled in is among the candidates
    [collectCandidates] returns, and each candidate it returns is such a
    row: the row counter never falls behind a row, neither after removals
    nor after the reset that follows a successful creation. *)
Theorem collectCandidates_misses_no_row (w : World AdminApp.Page)
    (name party : string) :
  adminSession w ->
  ({| AdminApp.entryName := name; AdminApp.entryParty := party |}
     ∈ AdminApp.collectCandidates (page w) <->
   name <> "" /\ party <> "" /\
   exists i, AdminApp.candidateRows (AdminApp.form (page w)) !! i
             = Some (name, party)).
Proof.
  intros Hsession. destruct (adminSession_numbered w Hsession) as [_ Hrows].
  rewrite collectCandidates_omap, list_elem_of_omap. split.
  - intros (i & _ & Hi). unfold completeRow in Hi.
    destruct (AdminApp.candidateRows (AdminApp.form (page w)) !! i)
      as [[n p]|] eqn:Hrow; [|done].
    destruct (truthy n && truthy p) eqn:Hfull; [|done].
    injection Hi as -> ->. apply andb_true_iff in Hfull as [Hn Hp].
    split_and!; [now apply truthy_nonempty|now apply truthy_nonempty|].
    now exists i.
  - intros (Hn & Hp & i & Hrow). exists i. split.
    + unfold upTo. apply elem_of_seqZ.
      specialize (Hrows i (mk_is_Some _ _ Hrow)). lia.
    + unfold completeRow. rewrite Hrow.
      assert (Ht : forall s, s <> "" -> truthy s = true).
      { intros s Hs. unfold truthy. apply negb_true_iff.
        now apply String.eqb_neq. }
      now rewrite (Ht name Hn), (Ht party Hp).
Qed.

(** The theorem on a session that creates an election and goes on with the
    reset form: the creation stores the two candidates typed in and puts
    the counter back to 1; of the rows added afterwards the one typed in is
    collected. *)
Lemma collectCandidates_misses_no_row_witness :
  adminSession laterSession /\
  AdminApp.collectCandidates (page filledSession) =
    [{| AdminApp.entryName := "Alice"; AdminApp.entryParty := "Red" |};
     {| AdminApp.entryName := "Bob"; AdminApp.entryParty := "Blue" |}] /\
  Contract.findElection (chain createdSession) 1 =
    Some {| Contract.electionId := 1;
            Contract.electionName := "Board Election";
            Contract.startTime := 2000; Contract.endTime := 5600;
            Contract.candidates :=
              [{| Contract.candidateId := 1;
                  Contract.candidateName := "Alice";
                  Contract.candidateParty := "Red";
                  Contract.voteCount := 0 |};
               {| Contract.candidateId := 2;
                  Contract.candidateName := "Bob";
                  Contract.candidateParty := "Blue";
                  Contract.voteCount := 0 |}] |} /\
  AdminApp.candidateCounter (page createdSession) = 1 /\
  AdminApp.candidateCounter (page laterSession) = 3 /\
  AdminApp.candidateRows (AdminApp.form (page laterSession)) !! 3
    = Some ("Carol", "Green") /\
  {| AdminApp.entryName := "Carol"; AdminApp.entryParty := "Green" |}
    ∈ AdminApp.collectCandidates (page laterSession).
Proof.
  assert (Hsession : adminSession laterSession).
  { unfold laterSession.
    apply session_type, session_remove, session_add, session_add.
    unfold createdSession. apply session_create. unfold filledSession.
    apply session_election, session_type, session_type, session_add,
      session_start. }
  split_and!; [exact Hsession|reflexivity..|].
  apply (collectCandidates_misses_no_row _ "Carol" "Green" Hsession).
  split_and!; [done|done|]. exists 3. reflexivity.
Defined.

(** ** The network name *)

(** X12: the admin page and the voter page show the same network name for a
    chain id, the mapped name or [Local Network (id)], exactly when the id
    is not the name of a member every object literal inherits; for such an
    id the lookup in the admin's object literal finds the inherited member
    instead. *)
Theorem network_names_agree (chainId : string) :
  chainId ∉ AdminApp.objectPrototype <->
  AdminApp.displayNetworkInfo chainId
    = AdminApp.NetworkText (UI.getNetworkName chainId).
Proof.
  unfold AdminApp.displayNetworkInfo, AdminApp.networkMap, UI.getNetworkName.
  destruct (decide (chainId = "0x1")) as [->|H1];
    [split; [reflexivity|intros _; apply (bool_decide_unpack _); by vm_compute]|].
  destruct (decide (chainId = "0x3")) as [->|H3];
    [split; [reflexivity|intros _; apply (bool_decide_unpack _); by vm_compute]|].
  destruct (decide (chainId = "0x4")) as [->|H4];
    [split; [reflexivity|intros _; apply (bool_decide_unpack _); by vm_compute]|].
  destruct (decide (chainId = "0x5")) as [->|H5];
    [split; [reflexivity|intros _; apply (bool_decide_unpack _); by vm_compute]|].
  destruct (decide (chainId = "0x539")) as [->|H539];
    [split; [reflexivity|intros _; apply (bool_decide_unpack _); by vm_compute]|].
  rewrite !lookup_insert_ne, lookup_empty by done.
  apply String.eqb_neq in H1, H3, H4, H5, H539.
  rewrite H1, H3, H4, H5, H539.
  destruct (bool_decide (chainId ∈ AdminApp.objectPrototype)) eqn:Hin.
  - apply bool_decide_eq_true in Hin. split; [done|discriminate].
  - apply bool_decide_eq_false in Hin. split; [reflexivity|done].
Qed.
